(** * Baseline comparison of freehand calibration results

    A shallow embedding of [CompareCalibrationResultsWithBaseline],
    [GetCalibrationError] and the call made by [main] in
    vtkFreehandCalibrationTest.cxx, with the properties of the comparison
    proved over it.

    - C++ [double] is IEEE 754 binary64, taken from the Standard Library's
      executable specification of floating-point numbers ([SpecFloat]):
      signed zeros, infinities, NaN and round-to-nearest-even are all there.
    - The two result files are trees of [vtkXMLDataElement]; a read that
      fails is the NULL pointer, here [None].
    - The function body threads the failure counter and the error log
      through a small monad in which [return numberOfFailures] leaves the
      whole function. *)

From Stdlib Require Import ZArith Bool Lia.
From Stdlib Require Import Floats.SpecFloat.
From stdpp Require Import base option list strings gmap.


Set Warnings "-register-all".
Local Open Scope string_scope.
Local Open Scope list_scope.

(* ===================================================================== *)
(** ** IEEE binary64 arithmetic *)
(* ===================================================================== *)

Module Double.

Definition prec : Z := 53.
Definition emax : Z := 1024.

Abbreviation double := spec_float.

(** A [spec_float] is a binary64 value when its mantissa and exponent are
    in canonical form. *)
Definition valid (x : double) : bool := valid_binary prec emax x.

Definition add : double -> double -> double := SFadd prec emax.
Definition sub : double -> double -> double := SFsub prec emax.
Definition mul : double -> double -> double := SFmul prec emax.
Definition div : double -> double -> double := SFdiv prec emax.
Definition sqrt : double -> double := SFsqrt prec emax.

(** [x < y] and [x > y]; both are false as soon as one side is NaN. *)
Definition ltb (x y : double) : bool := SFltb x y.
Definition gtb (x y : double) : bool := SFltb y x.

(** [pow(x, 2)]: the square, rounded once. *)
Definition pow2 (x : double) : double := mul x x.

(** Conversion [int -> double]. *)
Definition of_int (z : Z) : double := binary_normalize prec emax z 0 false.

Definition INT_MIN : Z := - 2 ^ 31.
Definition INT_MAX : Z := 2 ^ 31 - 1.

(** Conversion [double -> int]: the fractional part is discarded.  The
    conversion is undefined ([None]) for NaN, the infinities and values
    whose integral part does not fit an [int]. *)
Definition to_int (d : double) : option Z :=
  match d with
  | S754_zero _ => Some 0%Z
  | S754_finite s m e =>
      let z := cond_Zopp s (Z.shiftl (Zpos m) e) in
      if (INT_MIN <=? z)%Z && (z <=? INT_MAX)%Z then Some z else None
  | S754_infinity _ | S754_nan => None
  end.

Definition zero : double := S754_zero false.
Definition one : double := S754_finite false 4503599627370496 (-52).
Definition nan : double := S754_nan.

(** The binary64 value of the decimal [n / d], for writing down sample
    documents: correctly rounded, as a decimal literal is. *)
Definition decimal (n d : Z) : double := div (of_int n) (of_int d).

End Double.

Import Double.

(** [const double ERROR_THRESHOLD = 0.05]: the binary64 number nearest to
    5/100, that is 7205759403792794 * 2^-57. *)
Definition ERROR_THRESHOLD : double := S754_finite false 7205759403792794 (-57).

(* ===================================================================== *)
(** ** Result documents *)
(* ===================================================================== *)

(** [vtkXMLDataElement] is a class of VTK, outside the repository: the tree
    and its three lookups follow the data model and the contract of
    sections 3 and 4.1 of the specification.  An attribute holds a number, a
    vector of numbers or text. *)
Inductive attr_value :=
| AScalar (d : double)
| AVector (v : list double)
| AString (s : string).

Inductive vtkXMLDataElement := XMLDataElement {
  Name : string;
  Attributes : gmap string attr_value;
  NestedElements : list vtkXMLDataElement
}.

(** First direct child of that name, or NULL. *)
Definition FindNestedElementWithName (e : vtkXMLDataElement) (name : string)
  : option vtkXMLDataElement :=
  List.find (fun c => String.eqb (Name c) name) (NestedElements e).

(** The vector stored under [name], when it is there and has [length]
    components. *)
Definition GetVectorAttribute (e : vtkXMLDataElement) (name : string) (length : nat)
  : option (list double) :=
  match Attributes e !! name with
  | Some (AVector v) => if decide (List.length v = length) then Some v else None
  | _ => None
  end.

Definition GetScalarAttribute (e : vtkXMLDataElement) (name : string) : option double :=
  match Attributes e !! name with
  | Some (AScalar d) => Some d
  | _ => None
  end.

(** [a[i]] on a C array; the reads of the program are all in range. *)
Definition at_index (a : list double) (i : nat) : double := List.nth i a nan.

(* ===================================================================== *)
(** ** 4x4 matrices and transforms *)
(* ===================================================================== *)

(** [double Element[4][4]], row by row. *)
Definition vtkMatrix4x4 := list (list double).

(** [vtkMatrix4x4::New()] is the identity. *)
Definition New : vtkMatrix4x4 :=
  [ [one; zero; zero; zero];
    [zero; one; zero; zero];
    [zero; zero; one; zero];
    [zero; zero; zero; one] ].

Definition SetElement (i j : nat) (v : double) (m : vtkMatrix4x4) : vtkMatrix4x4 :=
  alter (fun row => <[j:=v]> row) i m.

Definition GetElement (m : vtkMatrix4x4) (i j : nat) : double :=
  List.nth j (List.nth i m []) nan.

(** A [vtkTransform] whose matrix was set with [SetMatrix]; [GetPosition]
    is the translation column of that matrix. *)
Record vtkTransform := { Matrix : vtkMatrix4x4 }.

Definition SetMatrix (m : vtkMatrix4x4) : vtkTransform := {| Matrix := m |}.

Definition GetPosition (t : vtkTransform) : list double :=
  [ GetElement (Matrix t) 0 3; GetElement (Matrix t) 1 3; GetElement (Matrix t) 2 3 ].

(** [GetCalibrationError], lines 431-451. *)
Definition GetCalibrationError (baseTransMatrix currentTransMatrix : vtkMatrix4x4) : double :=
  let baseTransform := SetMatrix baseTransMatrix in
  let currentTransform := SetMatrix currentTransMatrix in
  let bx := at_index (GetPosition baseTransform) 0 in
  let by_ := at_index (GetPosition baseTransform) 1 in
  let bz := at_index (GetPosition baseTransform) 2 in
  let cx := at_index (GetPosition currentTransform) 0 in
  let cy := at_index (GetPosition currentTransform) 1 in
  let cz := at_index (GetPosition currentTransform) 2 in
  let distance :=
    sqrt (add (add (pow2 (sub bx cx)) (pow2 (sub by_ cy))) (pow2 (sub bz cz))) in
  distance.

(** Modelled from the spec: [PlusMath::GetPositionDifference] (PlusMath.h and
    its implementation are not among the sources).  Section 4.2: the
    translation error of A and B is the Euclidean distance between the
    translation components of A and B. *)
Definition GetPositionDifference (aMatrix bMatrix : vtkMatrix4x4) : double :=
  let d r := sub (GetElement aMatrix r 3) (GetElement bMatrix r 3) in
  sqrt (add (add (pow2 (d 0%nat)) (pow2 (d 1%nat))) (pow2 (d 2%nat))).

(* ===================================================================== *)
(** ** The rotation error of the specification *)
(* ===================================================================== *)

(** Modelled from the spec: the constant pi of the arccos of section 4.2,
    as the binary64 number nearest to it. *)
Definition PI : double := decimal 3141592653589793 1000000000000000.

(** Modelled from the spec: the series [1/(2k+1) - z/(2k+3) + z^2/(2k+5) - ..]
    of the arctangent, by Horner's rule, for the arccos of section 4.2. *)
Fixpoint atan_series (z : double) (k terms : nat) : double :=
  let c := div one (of_int (2 * Z.of_nat k + 1)) in
  match terms with
  | O => c
  | S terms => sub c (mul z (atan_series z (S k) terms))
  end.

(** Modelled from the spec: the arctangent of a number that is not negative,
    for the arccos of section 4.2.  The argument is brought below
    [tan (pi/8)] with [atan y = pi/2 - atan (1/y)] and
    [atan y = pi/4 + atan ((y - 1)/(y + 1))]. *)
Definition atan_small (y : double) : double := mul y (atan_series (mul y y) 0 30).

Definition atan_unit (y : double) : double :=
  if gtb y (decimal 4142 10000)
  then add (div PI (of_int 4)) (atan_small (div (sub y one) (add y one)))
  else atan_small y.

Definition atan_not_negative (y : double) : double :=
  if gtb y one then sub (div PI (of_int 2)) (atan_unit (div one y)) else atan_unit y.

(** Modelled from the spec: the arccos of section 4.2, in radians, by
    [acos x = 2 atan (sqrt ((1 - x)/(1 + x)))]; NaN outside [-1, 1]. *)
Definition acos (x : double) : double :=
  if gtb x one || ltb x (of_int (-1)) then nan
  else mul (of_int 2) (atan_not_negative (sqrt (div (sub one x) (add one x)))).

(** Modelled from the spec: radians to degrees, for the rotation error of
    section 4.2. *)
Definition DegreesFromRadians (x : double) : double := mul x (div (of_int 180) PI).

(** Modelled from the spec: [trace (R_A^T * R_B)] of section 4.2, the sum
    over the three columns [j] of the products of column [j] of [R_A] with
    column [j] of [R_B]. *)
Definition column_product (aMatrix bMatrix : vtkMatrix4x4) (j : nat) : double :=
  add (add (mul (GetElement aMatrix 0 j) (GetElement bMatrix 0 j))
           (mul (GetElement aMatrix 1 j) (GetElement bMatrix 1 j)))
      (mul (GetElement aMatrix 2 j) (GetElement bMatrix 2 j)).

Definition relative_rotation_trace (aMatrix bMatrix : vtkMatrix4x4) : double :=
  add (add (column_product aMatrix bMatrix 0) (column_product aMatrix bMatrix 1))
      (column_product aMatrix bMatrix 2).

(** Modelled from the spec: [PlusMath::GetOrientationDifference] (PlusMath.h
    and its implementation are not among the sources).  Section 4.2: the
    rotation error of A and B is [arccos ((trace (R_A^T * R_B) - 1) / 2)],
    converted to degrees. *)
Definition RotationError (aMatrix bMatrix : vtkMatrix4x4) : double :=
  DegreesFromRadians
    (acos (div (sub (relative_rotation_trace aMatrix bMatrix) one) (of_int 2))).

(* ===================================================================== *)
(** ** Filling the matrices *)
(* ===================================================================== *)

(** The two nested loops of lines 240-249: both matrices are filled from
    their 16-element arrays, element [(i, j)] from index [4*i + j]. *)
Definition fill_matrices (blTransformImageToProbe cTransformImageToProbe : list double)
  : vtkMatrix4x4 * vtkMatrix4x4 :=
  foldl (fun ms i =>
    foldl (fun '(baseTransMatrix, currentTransMatrix) j =>
             (SetElement i j (at_index blTransformImageToProbe (4 * i + j)) baseTransMatrix,
              SetElement i j (at_index cTransformImageToProbe (4 * i + j)) currentTransMatrix))
          ms (seq 0 4))
    (New, New) (seq 0 4).

(** The matrix the loops build from one array. *)
Definition matrix_of (a : list double) : vtkMatrix4x4 := fst (fill_matrices a a).

(* ===================================================================== *)
(** ** The failure log and the control flow of the function *)
(* ===================================================================== *)

Inductive document := Baseline | Current.

(** One constructor per kind of [LOG_ERROR] line of the function. *)
Inductive log_entry :=
| ReadingFileFailed (which : document)
| ReadingTagFailed (which : document) (tag : string)
| AttributeMissing (which : document) (attribute : string)
| TranslationErrorTooHigh (translationError : double) (threshold : Z)
| RotationErrorTooHigh (rotationError : double) (threshold : Z)
| ElementMismatch (metric : string) (i : nat) (current baseline : double)
| ConfidenceLevelMismatch (metric : string) (current baseline : double).

Record state := State { numberOfFailures : Z; messages : list log_entry }.

(** A statement either falls through to the next one or has executed
    [return]. *)
Inductive flow (A : Type) :=
| Next (a : A)
| Returned (value : Z).
Arguments Next {A} a.
Arguments Returned {A} value.

Definition M (A : Type) : Type := state -> flow A * state.

#[global] Instance M_ret : MRet M := fun A a s => (Next a, s).

#[global] Instance M_bind : MBind M := fun A B f m s =>
  match m s with
  | (Next a, s') => f a s'
  | (Returned v, s') => (Returned v, s')
  end.

Definition LOG_ERROR (e : log_entry) : M unit :=
  fun s => (Next (), State (numberOfFailures s) (messages s ++ [e])).

(** [numberOfFailures++] *)
Definition incr_numberOfFailures : M unit :=
  fun s => (Next (), State (numberOfFailures s + 1) (messages s)).

(** [return numberOfFailures;] *)
Definition return_numberOfFailures {A : Type} : M A :=
  fun s => (Returned (numberOfFailures s), s).

(** The guard written after every lookup of a file or of a section:
    [if (p == NULL) { LOG_ERROR(..); numberOfFailures++; return numberOfFailures; }] *)
Definition non_null {A : Type} (p : option A) (e : log_entry) : M A :=
  match p with
  | Some a => mret a
  | None => LOG_ERROR e;; incr_numberOfFailures;; return_numberOfFailures
  end.

(** [for (int i = from; i < from + count; i++) body] *)
Fixpoint for_range (from count : nat) (body : nat -> M unit) : M unit :=
  match count with
  | O => mret ()
  | S k => body from;; for_range (S from) k body
  end.

(** The ratio test, written out four times in the function (lines 323-329,
    346-352, 392-398 and 415-421) with a different message each time. *)
Definition ratio_check (e : log_entry) (baseline current : double) : M unit :=
  let ratio := div (mul one baseline) current in
  if gtb ratio (add (of_int 1) ERROR_THRESHOLD) || ltb ratio (sub (of_int 1) ERROR_THRESHOLD)
  then LOG_ERROR e;; incr_numberOfFailures
  else mret ().

Section Comparison.

(** [PlusMath::GetOrientationDifference] is not among the sources and uses
    trigonometric functions; the comparison is parametric in it. *)
Variable GetOrientationDifference : vtkMatrix4x4 -> vtkMatrix4x4 -> double.

(** Lines 223-264. *)
Definition TransformImageToProbe_block
    (calibrationTransformBaseline calibrationTransform : vtkXMLDataElement)
    (translationErrorThreshold rotationErrorThreshold : Z) : M unit :=
  match GetVectorAttribute calibrationTransformBaseline "TransformImageToProbe" 16 with
  | None => LOG_ERROR (AttributeMissing Baseline "TransformImageToProbe");; incr_numberOfFailures
  | Some blTransformImageToProbe =>
    match GetVectorAttribute calibrationTransform "TransformImageToProbe" 16 with
    | None => LOG_ERROR (AttributeMissing Current "TransformImageToProbe");; incr_numberOfFailures
    | Some cTransformImageToProbe =>
      let '(baseTransMatrix, currentTransMatrix) :=
        fill_matrices blTransformImageToProbe cTransformImageToProbe in
      let translationError := GetPositionDifference baseTransMatrix currentTransMatrix in
      (if gtb translationError (of_int translationErrorThreshold)
       then LOG_ERROR (TranslationErrorTooHigh translationError translationErrorThreshold);;
            incr_numberOfFailures
       else mret ());;
      let rotationError := GetOrientationDifference baseTransMatrix currentTransMatrix in
      if gtb rotationError (of_int rotationErrorThreshold)
      then LOG_ERROR (RotationErrorTooHigh rotationError rotationErrorThreshold);;
           incr_numberOfFailures
      else mret ()
    end
  end.

(** Lines 306-331 ([metric] = "PRE", [n] = 9) and 375-400 ("PLDE", 3). *)
Definition vector_block (metric : string) (n : nat)
    (analysisBaseline analysis : vtkXMLDataElement) : M unit :=
  match GetVectorAttribute analysisBaseline metric n with
  | None => LOG_ERROR (AttributeMissing Baseline metric);; incr_numberOfFailures
  | Some bl =>
    match GetVectorAttribute analysis metric n with
    | None => LOG_ERROR (AttributeMissing Current metric);; incr_numberOfFailures
    | Some c =>
      for_range 0 n (fun i =>
        ratio_check (ElementMismatch metric i (at_index c i) (at_index bl i))
                    (at_index bl i) (at_index c i))
    end
  end.

(** Lines 333-353 and 402-422. *)
Definition confidence_block (metric : string)
    (analysisBaseline analysis : vtkXMLDataElement) : M unit :=
  match GetScalarAttribute analysisBaseline "ValidationDataConfidenceLevel" with
  | None => LOG_ERROR (AttributeMissing Baseline (metric +:+ " ValidationDataConfidenceLevel"));;
            incr_numberOfFailures
  | Some blValidationDataConfidenceLevel =>
    match GetScalarAttribute analysis "ValidationDataConfidenceLevel" with
    | None => LOG_ERROR (AttributeMissing Current (metric +:+ " ValidationDataConfidenceLevel"));;
              incr_numberOfFailures
    | Some cValidationDataConfidenceLevel =>
      ratio_check (ConfidenceLevelMismatch metric cValidationDataConfidenceLevel
                                           blValidationDataConfidenceLevel)
                  blValidationDataConfidenceLevel cValidationDataConfidenceLevel
    end
  end.

(** Lines 288-355 ([section] = "PointReconstructionErrorAnalysis",
    [metric] = "PRE", [n] = 9) and 357-424
    ("PointLineDistanceErrorAnalysis", "PLDE", 3). *)
Definition analysis_block (section metric : string) (n : nat)
    (errorReportsBaseline errorReports : vtkXMLDataElement) : M unit :=
  analysisBaseline ← non_null (FindNestedElementWithName errorReportsBaseline section)
                               (ReadingTagFailed Baseline section);
  analysis ← non_null (FindNestedElementWithName errorReports section)
                       (ReadingTagFailed Current section);
  vector_block metric n analysisBaseline analysis;;
  confidence_block metric analysisBaseline analysis.

(** Lines 164-429.  The arguments are what [ReadElementFromFile] gave for
    the two file names. *)
Definition CompareCalibrationResultsWithBaseline_body
    (baselineRootElem currentRootElem : option vtkXMLDataElement)
    (translationErrorThreshold rotationErrorThreshold : Z) : M Empty_set :=
  baselineRoot ← non_null baselineRootElem (ReadingFileFailed Baseline);
  currentRoot ← non_null currentRootElem (ReadingFileFailed Current);
  (* <CalibrationResults> *)
  calibrationResultsBaseline ←
    non_null (FindNestedElementWithName baselineRoot "CalibrationResults")
             (ReadingTagFailed Baseline "CalibrationResults");
  calibrationResults ←
    non_null (FindNestedElementWithName currentRoot "CalibrationResults")
             (ReadingTagFailed Current "CalibrationResults");
  (* <CalibrationTransform> *)
  calibrationTransformBaseline ←
    non_null (FindNestedElementWithName calibrationResultsBaseline "CalibrationTransform")
             (ReadingTagFailed Baseline "CalibrationTransform");
  calibrationTransform ←
    non_null (FindNestedElementWithName calibrationResults "CalibrationTransform")
             (ReadingTagFailed Current "CalibrationTransform");
  TransformImageToProbe_block calibrationTransformBaseline calibrationTransform
    translationErrorThreshold rotationErrorThreshold;;
  (* <ErrorReports> *)
  errorReportsBaseline ←
    non_null (FindNestedElementWithName baselineRoot "ErrorReports")
             (ReadingTagFailed Baseline "ErrorReports");
  errorReports ←
    non_null (FindNestedElementWithName currentRoot "ErrorReports")
             (ReadingTagFailed Current "ErrorReports");
  analysis_block "PointReconstructionErrorAnalysis" "PRE" 9 errorReportsBaseline errorReports;;
  analysis_block "PointLineDistanceErrorAnalysis" "PLDE" 3 errorReportsBaseline errorReports;;
  return_numberOfFailures.

(** A run starts with [numberOfFailures = 0] and an empty log. *)
Definition run (baselineRootElem currentRootElem : option vtkXMLDataElement)
    (translationErrorThreshold rotationErrorThreshold : Z) : flow Empty_set * state :=
  CompareCalibrationResultsWithBaseline_body baselineRootElem currentRootElem
    translationErrorThreshold rotationErrorThreshold (State 0 []).

(** The value the function returns. *)
Definition CompareCalibrationResultsWithBaseline
    (baselineRootElem currentRootElem : option vtkXMLDataElement)
    (translationErrorThreshold rotationErrorThreshold : Z) : Z :=
  match run baselineRootElem currentRootElem translationErrorThreshold rotationErrorThreshold with
  | (Returned value, _) => value
  | (Next impossible, _) => match impossible with end
  end.

(** The lines it logs, in order. *)
Definition CompareLog
    (baselineRootElem currentRootElem : option vtkXMLDataElement)
    (translationErrorThreshold rotationErrorThreshold : Z) : list log_entry :=
  messages (snd (run baselineRootElem currentRootElem
                     translationErrorThreshold rotationErrorThreshold)).

(** Line 149 of [main]: the thresholds parsed from the command line are
    [double]s and the function takes [int]s, so both are converted on the
    way in.  [None] when a conversion is undefined. *)
Definition main_compare
    (baselineRootElem currentRootElem : option vtkXMLDataElement)
    (inputTranslationErrorThreshold inputRotationErrorThreshold : double) : option Z :=
  translationErrorThreshold ← to_int inputTranslationErrorThreshold;
  rotationErrorThreshold ← to_int inputRotationErrorThreshold;
  Some (CompareCalibrationResultsWithBaseline baselineRootElem currentRootElem
          translationErrorThreshold rotationErrorThreshold).

End Comparison.

(* ===================================================================== *)
(** ** The notions the specification speaks in *)
(* ===================================================================== *)

(** The relative-ratio rule in the words of the specification (section
    4.3): with [ratio = b / c], fail when [ratio > 1 + eps] or
    [ratio < 1 - eps]. *)
Definition RelativeRatioRule_fails (eps b c : double) : bool :=
  let ratio := div b c in
  gtb ratio (add one eps) || ltb ratio (sub one eps).

(** The five attributes of a document whose sections are all there (section
    6); each one as its lookup returns it. *)
Record document_fields := Fields {
  TransformImageToProbe : option (list double);
  PRE : option (list double);
  PRE_confidence : option double;
  PLDE : option (list double);
  PLDE_confidence : option double
}.

Definition fields_of (root : vtkXMLDataElement) : option document_fields :=
  calibrationResults ← FindNestedElementWithName root "CalibrationResults";
  calibrationTransform ← FindNestedElementWithName calibrationResults "CalibrationTransform";
  errorReports ← FindNestedElementWithName root "ErrorReports";
  pointReconstruction ← FindNestedElementWithName errorReports "PointReconstructionErrorAnalysis";
  pointLineDistance ← FindNestedElementWithName errorReports "PointLineDistanceErrorAnalysis";
  Some (Fields (GetVectorAttribute calibrationTransform "TransformImageToProbe" 16)
               (GetVectorAttribute pointReconstruction "PRE" 9)
               (GetScalarAttribute pointReconstruction "ValidationDataConfidenceLevel")
               (GetVectorAttribute pointLineDistance "PLDE" 3)
               (GetScalarAttribute pointLineDistance "ValidationDataConfidenceLevel")).

Definition all_valid (v : list double) : bool := forallb valid v.

(** A valid document has every section and every attribute of the format,
    and all its numbers are binary64 values. *)
Definition valid_fields (f : document_fields) : bool :=
  match f with
  | Fields (Some t) (Some p) (Some pc) (Some l) (Some lc) =>
      all_valid t && all_valid p && valid pc && all_valid l && valid lc
  | _ => false
  end.

Definition valid_document (root : vtkXMLDataElement) : bool :=
  match fields_of root with
  | Some f => valid_fields f
  | None => false
  end.

(** The same document with the [PRE] attribute taken away, and with one
    component of [PRE] replaced. *)
Definition without_PRE (f : document_fields) : document_fields :=
  Fields (TransformImageToProbe f) None (PRE_confidence f) (PLDE f) (PLDE_confidence f).


(** What a block adds to the log when it is run on its own. *)
Definition block_log {A : Type} (m : M A) : list log_entry :=
  messages (snd (m (State 0 []))).

(** [record l]: the entries of [l] logged and counted, one by one. *)
Definition record (l : list log_entry) (s : state) : state :=
  State (numberOfFailures s + Z.of_nat (length l)) (messages s ++ l).

(** [logs m l]: from any state, the block [m] falls through after logging
    and counting exactly the entries of [l]. *)
Definition logs (m : M unit) (l : list log_entry) : Prop :=
  forall s, m s = (Next (), record l s).

(** [within kn kr m]: whatever [m] does, it logs and counts the same
    entries, at most [kn] of them when it falls through and at most [kr]
    when it executes [return], which then returns the counter. *)
Definition within (kn kr : nat) {A : Type} (m : M A) : Prop :=
  forall s, exists l,
    snd (m s) = record l s
    /\ match fst (m s) with
       | Next _ => (length l <= kn)%nat
       | Returned v => v = numberOfFailures (record l s) /\ (length l <= kr)%nat
       end.

(** The sign bit of a value, if it has one, is clear. *)
Definition not_negative (x : double) : Prop :=
  match x with
  | S754_zero s | S754_infinity s | S754_finite s _ _ => s = false
  | S754_nan => True
  end.

(** The test of [ratio_check]. *)
Definition out_of_tolerance (baseline current : double) : bool :=
  let ratio := div (mul one baseline) current in
  gtb ratio (add (of_int 1) ERROR_THRESHOLD) || ltb ratio (sub (of_int 1) ERROR_THRESHOLD).

Definition ratio_log (e : log_entry) (baseline current : double) : list log_entry :=
  if out_of_tolerance baseline current then [e] else [].

(** The entries each block of the function logs, as functions of what the
    attribute lookups returned. *)
Definition vector_log (metric : string) (n : nat) (bl c : option (list double))
  : list log_entry :=
  match bl, c with
  | None, _ => [AttributeMissing Baseline metric]
  | Some _, None => [AttributeMissing Current metric]
  | Some bl, Some c =>
      flat_map (fun i => ratio_log (ElementMismatch metric i (at_index c i) (at_index bl i))
                                   (at_index bl i) (at_index c i))
               (seq 0 n)
  end.

Definition confidence_log (metric : string) (bl c : option double) : list log_entry :=
  match bl, c with
  | None, _ => [AttributeMissing Baseline (metric +:+ " ValidationDataConfidenceLevel")]
  | Some _, None => [AttributeMissing Current (metric +:+ " ValidationDataConfidenceLevel")]
  | Some bl, Some c => ratio_log (ConfidenceLevelMismatch metric c bl) bl c
  end.

Definition translation_log (translationError : double) (threshold : Z) : list log_entry :=
  if gtb translationError (of_int threshold)
  then [TranslationErrorTooHigh translationError threshold] else [].

Definition rotation_log (rotationError : double) (threshold : Z) : list log_entry :=
  if gtb rotationError (of_int threshold)
  then [RotationErrorTooHigh rotationError threshold] else [].

Section Logs.

Variable GetOrientationDifference : vtkMatrix4x4 -> vtkMatrix4x4 -> double.

Definition transform_log (bl c : option (list double))
    (translationErrorThreshold rotationErrorThreshold : Z) : list log_entry :=
  match bl, c with
  | None, _ => [AttributeMissing Baseline "TransformImageToProbe"]
  | Some _, None => [AttributeMissing Current "TransformImageToProbe"]
  | Some bl, Some c =>
      let '(baseTransMatrix, currentTransMatrix) := fill_matrices bl c in
      translation_log (GetPositionDifference baseTransMatrix currentTransMatrix)
                      translationErrorThreshold
      ++ rotation_log (GetOrientationDifference baseTransMatrix currentTransMatrix)
                      rotationErrorThreshold
  end.

Definition fields_log (fb fc : document_fields)
    (translationErrorThreshold rotationErrorThreshold : Z) : list log_entry :=
  transform_log (TransformImageToProbe fb) (TransformImageToProbe fc)
                translationErrorThreshold rotationErrorThreshold
  ++ vector_log "PRE" 9 (PRE fb) (PRE fc)
  ++ confidence_log "PRE" (PRE_confidence fb) (PRE_confidence fc)
  ++ vector_log "PLDE" 3 (PLDE fb) (PLDE fc)
  ++ confidence_log "PLDE" (PLDE_confidence fb) (PLDE_confidence fc).

(** The reading of section 4.4 (step 2) and section 7 under which a missing
    [PointReconstructionErrorAnalysis] section costs one failure and the
    [PointLineDistanceErrorAnalysis] branch is run all the same. *)
Definition exit_is_per_section
    (baselineRoot currentRoot : vtkXMLDataElement)
    (translationErrorThreshold rotationErrorThreshold : Z) : Prop :=
  forall errorReportsBaseline errorReports,
    FindNestedElementWithName baselineRoot "ErrorReports" = Some errorReportsBaseline ->
    FindNestedElementWithName currentRoot "ErrorReports" = Some errorReports ->
    FindNestedElementWithName errorReportsBaseline "PointReconstructionErrorAnalysis" = None
    \/ FindNestedElementWithName errorReports "PointReconstructionErrorAnalysis" = None ->
    exists before which,
      CompareLog GetOrientationDifference (Some baselineRoot) (Some currentRoot)
                 translationErrorThreshold rotationErrorThreshold
      = before
        ++ [ReadingTagFailed which "PointReconstructionErrorAnalysis"]
        ++ block_log (analysis_block "PointLineDistanceErrorAnalysis" "PLDE" 3
                                     errorReportsBaseline errorReports).

End Logs.

(** The identity property of section 7 of the specification, for the
    orientation difference [GetOrientationDifference]. *)
Definition identity_property
    (GetOrientationDifference : vtkMatrix4x4 -> vtkMatrix4x4 -> double)
    (root : vtkXMLDataElement)
    (translationErrorThreshold rotationErrorThreshold : Z) : Prop :=
  valid_document root = true ->
  (0 <= translationErrorThreshold)%Z -> (0 <= rotationErrorThreshold)%Z ->
  CompareCalibrationResultsWithBaseline GetOrientationDifference (Some root) (Some root)
    translationErrorThreshold rotationErrorThreshold = 0%Z.

(* ===================================================================== *)
(** ** Translations on a binary grid *)
(* ===================================================================== *)

(** The binary64 number [z * 2^e], for [z] of at most 53 bits and [e] in
    the range of the normal numbers: the mantissa is [|z|] shifted left to
    53 bits. *)
Definition dyadic (z e : Z) : double :=
  match z with
  | Z0 => zero
  | Zpos p =>
      S754_finite false (Pos.shiftl p (Z.to_N (53 - Zpos (digits2_pos p))))
                  (Zpos (digits2_pos p) - 53 + e)
  | Zneg p =>
      S754_finite true (Pos.shiftl p (Z.to_N (53 - Zpos (digits2_pos p))))
                  (Zpos (digits2_pos p) - 53 + e)
  end.




(* ===================================================================== *)
(** ** Sample documents *)
(* ===================================================================== *)

(** An orientation-difference function to run examples with: it reports a
    zero angle for every pair of matrices. *)
Definition no_rotation : vtkMatrix4x4 -> vtkMatrix4x4 -> double := fun _ _ => zero.

Definition analysis_element (section metric : string) (v : option (list double))
    (confidence : option double) : vtkXMLDataElement :=
  XMLDataElement section
    (match v with Some v => <[metric := AVector v]> | None => id end
       (match confidence with
        | Some c => {[ "ValidationDataConfidenceLevel" := AScalar c ]}
        | None => ∅
        end))
    [].

(** A document in the format of section 6 of the specification. *)
Definition make_document (f : document_fields) : vtkXMLDataElement :=
  XMLDataElement "Root" ∅
    [ XMLDataElement "CalibrationResults" ∅
        [ XMLDataElement "CalibrationTransform"
            (match TransformImageToProbe f with
             | Some t => {[ "TransformImageToProbe" := AVector t ]}
             | None => ∅
             end) [] ];
      XMLDataElement "ErrorReports" ∅
        [ analysis_element "PointReconstructionErrorAnalysis" "PRE" (PRE f) (PRE_confidence f);
          analysis_element "PointLineDistanceErrorAnalysis" "PLDE" (PLDE f) (PLDE_confidence f) ] ].

(** The transform with the identity rotation and translation [(x, y, z)],
    flattened row by row. *)
Definition translation_by (x y z : double) : list double :=
  [ one; zero; zero; x;  zero; one; zero; y;  zero; zero; one; z;  zero; zero; zero; one ].

(** The baseline of the end-to-end scenario of the specification (section
    8): identity transform, all error components 1, confidence 0.95. *)
Definition scenario_fields : document_fields :=
  Fields (Some (translation_by zero zero zero))
         (Some (replicate 9 one)) (Some (decimal 95 100))
         (Some (replicate 3 one)) (Some (decimal 95 100)).

Definition scenario_baseline : vtkXMLDataElement := make_document scenario_fields.

(** The transform that turns about the z axis, by the angle of cosine [c]
    and sine [s], flattened row by row. *)
Definition rotation_about_z (c s : double) : list double :=
  [ c; SFopp s; zero; zero;  s; c; zero; zero;  zero; zero; one; zero;  zero; zero; zero; one ].

(** The cosine and the sine of 46 degrees, to 16 digits. *)
Definition cos_46 : double := decimal 6946583704589973 10000000000000000.
Definition sin_46 : double := decimal 7193398003386511 10000000000000000.

(** The scenario's baseline with its transform turned by 46 degrees. *)
Definition turned_fields : document_fields :=
  Fields (Some (rotation_about_z cos_46 sin_46))
         (Some (replicate 9 one)) (Some (decimal 95 100))
         (Some (replicate 3 one)) (Some (decimal 95 100)).

Definition turned_baseline : vtkXMLDataElement := make_document turned_fields.

(** A CalibrationTransform element holding the transform [a]. *)
Definition transform_element (a : list double) : vtkXMLDataElement :=
  XMLDataElement "CalibrationTransform" {[ "TransformImageToProbe" := AVector a ]} [].

(** A PointReconstructionErrorAnalysis element of the baseline, and one of a
    current document whose component 4 is 2 and whose confidence is 0.8. *)
Definition sample_PRE_baseline : vtkXMLDataElement :=
  analysis_element "PointReconstructionErrorAnalysis" "PRE"
    (Some (replicate 9 one)) (Some (decimal 95 100)).

Definition sample_PRE_current : vtkXMLDataElement :=
  analysis_element "PointReconstructionErrorAnalysis" "PRE"
    (Some (<[4%nat := of_int 2]> (replicate 9 one))) (Some (decimal 80 100)).

(** An element without attributes. *)
Definition empty_element : vtkXMLDataElement := XMLDataElement "CalibrationTransform" ∅ [].

(** The scenario's baseline without its [PointReconstructionErrorAnalysis]
    section, and with a [PLDE] vector of zeros. *)
Definition without_PRE_section : vtkXMLDataElement :=
  XMLDataElement "Root" ∅
    [ XMLDataElement "CalibrationResults" ∅
        [ XMLDataElement "CalibrationTransform"
            {[ "TransformImageToProbe" := AVector (translation_by zero zero zero) ]} [] ];
      XMLDataElement "ErrorReports" ∅
        [ analysis_element "PointLineDistanceErrorAnalysis" "PLDE"
            (Some (replicate 3 zero)) (Some (decimal 95 100)) ] ].

(* ===================================================================== *)
(** ** [main] and further notions *)
(* ===================================================================== *)

(** [has_sign s x]: [x] is a zero, an infinity or a finite number whose sign
    bit is [s]. *)
Definition has_sign (s : bool) (x : double) : Prop :=
  match x with
  | S754_zero s' | S754_infinity s' | S754_finite s' _ _ => s' = s
  | S754_nan => False
  end.

(** Neither an infinity nor NaN. *)
Definition is_finite (x : double) : bool :=
  match x with
  | S754_zero _ | S754_finite _ _ _ => true
  | S754_infinity _ | S754_nan => false
  end.

(** The lines logged by the guards that execute [return]: a file that could
    not be read, a section that is not there. *)
Definition is_exit_line (e : log_entry) : bool :=
  match e with
  | ReadingFileFailed _ | ReadingTagFailed _ _ => true
  | _ => false
  end.

Definition no_exit_line (l : list log_entry) : Prop :=
  Forall (fun e => is_exit_line e = false) l.

(** [orderly m]: the entries [m] logs hold no exit line when [m] falls
    through, and at most one, the last entry, when it executes [return]. *)
Definition orderly {A : Type} (m : M A) : Prop :=
  forall s, exists l,
    snd (m s) = record l s
    /\ match fst (m s) with
       | Next _ => no_exit_line l
       | Returned _ =>
           no_exit_line l
           \/ exists l' e, l = l' ++ [e] /\ no_exit_line l' /\ is_exit_line e = true
       end.

Inductive PlusStatus := PLUS_FAIL | PLUS_SUCCESS.

Definition succeeded (s : PlusStatus) : bool :=
  match s with
  | PLUS_SUCCESS => true
  | PLUS_FAIL => false
  end.

Definition EXIT_SUCCESS : Z := 0.
Definition EXIT_FAILURE : Z := 1.

(** What the calls of [main] into the libraries give back, in the order
    [main] makes them: the parsing of the command line with the two
    thresholds it sets (lines 51-52, 65-66, 70), the configuration read
    (line 80), the coordinate definitions (line 92), the calibration and
    validation sequences and their segmentation (lines 108, 115, 125, 132),
    the calibration (line 141), and the two result files the comparison
    reads (lines 168-171).  [main] does not look at what
    [freehandCalibration->ReadConfiguration], [Initialize] and
    [patternRecognition.ReadConfiguration] return (lines 99-104). *)
Record main_calls := {
  cmdargs_Parse : bool;
  inputTranslationErrorThreshold : double;
  inputRotationErrorThreshold : double;
  configRootElement : option vtkXMLDataElement;
  transformRepository_ReadConfiguration : PlusStatus;
  calibration_ReadFromSequenceMetafile : PlusStatus;
  calibration_RecognizePattern : PlusStatus;
  validation_ReadFromSequenceMetafile : PlusStatus;
  validation_RecognizePattern : PlusStatus;
  freehandCalibration_Calibrate : PlusStatus;
  baselineFile : option vtkXMLDataElement;
  currentResultFile : option vtkXMLDataElement
}.

Section MainProgram.

Variable GetOrientationDifference : vtkMatrix4x4 -> vtkMatrix4x4 -> double.

(** [main], lines 43-159: the exit status, or [None] when the conversion of
    a threshold to [int] at line 149 is undefined. *)
Definition main (calls : main_calls) : option Z :=
  if negb (cmdargs_Parse calls) then Some EXIT_FAILURE
  else
    match configRootElement calls with
    | None => Some EXIT_FAILURE
    | Some _ =>
      if negb (succeeded (transformRepository_ReadConfiguration calls)) then Some EXIT_FAILURE
      else if negb (succeeded (calibration_ReadFromSequenceMetafile calls)) then Some EXIT_FAILURE
      else if negb (succeeded (calibration_RecognizePattern calls)) then Some EXIT_FAILURE
      else if negb (succeeded (validation_ReadFromSequenceMetafile calls)) then Some EXIT_FAILURE
      else if negb (succeeded (validation_RecognizePattern calls)) then Some EXIT_FAILURE
      else if negb (succeeded (freehandCalibration_Calibrate calls)) then Some EXIT_FAILURE
      else
        differences ← main_compare GetOrientationDifference
                        (baselineFile calls) (currentResultFile calls)
                        (inputTranslationErrorThreshold calls)
                        (inputRotationErrorThreshold calls);
        if negb (differences =? 0)%Z then Some EXIT_FAILURE else Some EXIT_SUCCESS
    end.

End MainProgram.

(** Every call whose result [main] tests has succeeded. *)
Definition all_calls_succeed (calls : main_calls) : bool :=
  cmdargs_Parse calls
  && bool_decide (is_Some (configRootElement calls))
  && succeeded (transformRepository_ReadConfiguration calls)
  && succeeded (calibration_ReadFromSequenceMetafile calls)
  && succeeded (calibration_RecognizePattern calls)
  && succeeded (validation_ReadFromSequenceMetafile calls)
  && succeeded (validation_RecognizePattern calls)
  && succeeded (freehandCalibration_Calibrate calls).

(** A current document all of whose error values are zero. *)
Definition all_zero_fields : document_fields :=
  Fields (Some (translation_by zero zero zero))
         (Some (replicate 9 zero)) (Some zero)
         (Some (replicate 3 zero)) (Some zero).

(** Documents that stop short: a root without sections, one with the
    calibration results only, and one whose error reports hold the
    PointReconstructionErrorAnalysis section only. *)
Definition empty_root : vtkXMLDataElement := XMLDataElement "Root" ∅ [].

Definition calibration_results_only : vtkXMLDataElement :=
  XMLDataElement "Root" ∅
    [ XMLDataElement "CalibrationResults" ∅
        [ transform_element (translation_by zero zero zero) ] ].

Definition without_PLDE_section : vtkXMLDataElement :=
  XMLDataElement "Root" ∅
    [ XMLDataElement "CalibrationResults" ∅
        [ transform_element (translation_by zero zero zero) ];
      XMLDataElement "ErrorReports" ∅
        [ analysis_element "PointReconstructionErrorAnalysis" "PRE"
            (Some (replicate 9 zero)) (Some (decimal 95 100)) ] ].

(** A run of [main] in which every call succeeds, on the documents given,
    with both thresholds 0. *)
Definition successful_calls (baseline current : vtkXMLDataElement) : main_calls :=
  {| cmdargs_Parse := true;
     inputTranslationErrorThreshold := zero;
     inputRotationErrorThreshold := zero;
     configRootElement := Some empty_root;
     transformRepository_ReadConfiguration := PLUS_SUCCESS;
     calibration_ReadFromSequenceMetafile := PLUS_SUCCESS;
     calibration_RecognizePattern := PLUS_SUCCESS;
     validation_ReadFromSequenceMetafile := PLUS_SUCCESS;
     validation_RecognizePattern := PLUS_SUCCESS;
     freehandCalibration_Calibrate := PLUS_SUCCESS;
     baselineFile := Some baseline;
     currentResultFile := Some current |}.

(* ===================================================================== *)
(** ** Facts of binary64 arithmetic *)
(* ===================================================================== *)

Lemma of_int_1 : of_int 1 = one.
Proof. reflexivity. Qed.

Lemma ERROR_THRESHOLD_nearest : decimal 5 100 = ERROR_THRESHOLD.
Proof. vm_compute. reflexivity. Qed.

Lemma div_eucl_div_mod (a b : Z) : Z.div_eucl a b = ((a / b)%Z, (a mod b)%Z).
Proof. unfold Z.div, Z.modulo. by destruct (Z.div_eucl a b). Qed.

Lemma new_location_exact (n : Z) : new_location n 0 = loc_Exact.
Proof. unfold new_location. by destruct (Z.even n). Qed.

(** Dividing a mantissa by itself: quotient [2^53], nothing left over. *)
Lemma div_core_self (m : positive) (e : Z) :
  SFdiv_core_binary prec emax (Zpos m) e (Zpos m) e
  = (9007199254740992%Z, (-53)%Z, loc_Exact).
Proof.
  unfold SFdiv_core_binary.
  rewrite !Z.sub_diag.
  change (Z.min (fexp prec emax 0) 0) with (-53)%Z.
  change (0 - -53)%Z with 53%Z. cbv beta iota zeta.
  rewrite div_eucl_div_mod, Z.shiftl_mul_pow2 by lia.
  rewrite (Z.mul_comm (Z.pos m)), Z.div_mul, Z.mod_mul by lia.
  by rewrite new_location_exact.
Qed.

Lemma div_finite_self (s : bool) (m : positive) (e : Z) :
  div (S754_finite s m e) (S754_finite s m e) = one.
Proof. unfold div, SFdiv. rewrite div_core_self. by destruct s. Qed.

(** [x / x] is 1 for a finite non-zero [x] and NaN otherwise. *)
Lemma div_self (x : double) : div x x = one \/ div x x = nan.
Proof. destruct x; [by right | by right | by right | left; apply div_finite_self]. Qed.

(** [1.0 * x] is [x], exactly. *)
Lemma mul_one_l (x : double) : valid x = true -> mul one x = x.
Proof.
  destruct x as [s|s| |s m e]; try done.
  intros Hv. unfold valid, valid_binary, bounded, canonical_mantissa in Hv.
  apply andb_prop in Hv as [Hc He]. apply Z.eqb_eq in Hc.
  unfold mul, SFmul, one. cbn [xorb].
  unfold binary_round_aux, shr_fexp, Zdigits2.
  assert (Hd : Zpos (digits2_pos (4503599627370496 * m)) = (Zpos (digits2_pos m) + 52)%Z).
  { cbv [Pos.mul]. cbn [digits2_pos]. rewrite !Pos2Z.inj_succ. lia. }
  rewrite Hd.
  replace (Z.pos (digits2_pos m) + 52 + (-52 + e))%Z with (Z.pos (digits2_pos m) + e)%Z by lia.
  rewrite Hc.
  replace (e - (-52 + e))%Z with 52%Z by lia.
  cbn [shr shr_record_of_loc].
  change (SpecFloat.iter_pos shr_1 52
            {| shr_m := Z.pos (4503599627370496 * m); shr_r := false; shr_s := false |})
    with {| shr_m := Z.pos m; shr_r := false; shr_s := false |}.
  cbn [shr_m loc_of_shr_record round_nearest_even].
  replace (-52 + e + 52)%Z with e by lia.
  rewrite Hc, Z.sub_diag. cbn [shr shr_m]. by rewrite He.
Qed.

(** [x - x] is [+0] for a finite [x] and NaN otherwise. *)
Lemma sub_self (x : double) : sub x x = zero \/ sub x x = nan.
Proof.
  destruct x as [[]|[]| |s m e]; [by left | by left | by right | by right | by right |].
  left. unfold sub, SFsub. by rewrite Z.sub_diag.
Qed.

Lemma compare_self (x : double) : SFcompare x x = Some Eq \/ SFcompare x x = None.
Proof.
  destruct x as [s|[]| |[] m e]; [by left | by left | by left | by right | |]; left; cbn.
  - by rewrite Z.compare_refl, Pos.compare_cont_refl.
  - by rewrite Z.compare_refl, Pos.compare_cont_refl.
Qed.

(** Neither [x < x] nor [x > x]. *)
Lemma ltb_irrefl (x : double) : ltb x x = false.
Proof. unfold ltb, SFltb. by destruct (compare_self x) as [-> | ->]. Qed.

Lemma gtb_irrefl (x : double) : gtb x x = false.
Proof. apply ltb_irrefl. Qed.

(** Rounding keeps the sign: the result of [binary_round_aux false ..] is
    NaN, [+0], [+inf] or a positive number. *)
Lemma binary_round_aux_not_negative (m e : Z) (l : location) :
  not_negative (binary_round_aux prec emax false m e l).
Proof.
  unfold binary_round_aux.
  destruct (shr_fexp prec emax m e l) as [mrs' e'].
  destruct (shr_fexp prec emax _ e' loc_Exact) as [mrs'' e''].
  destruct (shr_m mrs''); [done | | done].
  by destruct (e'' <=? emax - prec)%Z.
Qed.

Lemma of_int_not_negative (z : Z) : (0 <= z)%Z -> not_negative (of_int z).
Proof.
  intros Hz. destruct z as [|p|p]; [done | | lia].
  unfold of_int, binary_normalize, binary_round.
  destruct (shl_align _ _ _) as [mz ez]. apply binary_round_aux_not_negative.
Qed.

(** A value that is not above zero is not above a non-negative threshold. *)
Lemma not_above_threshold (x : double) (threshold : Z) :
  (0 <= threshold)%Z -> gtb x zero = false -> gtb x (of_int threshold) = false.
Proof.
  intros Hz Hx. pose proof (of_int_not_negative threshold Hz) as Hn.
  unfold gtb, SFltb in *.
  destruct (of_int threshold) as [s|s| |s m e]; cbn in Hn; subst;
    destruct x as [sx|[]| |[] mx ex]; try done.
Qed.

(** The test of the function agrees with the rule of the specification on
    every binary64 baseline value. *)
Lemma out_of_tolerance_rule (b c : double) :
  valid b = true -> out_of_tolerance b c = RelativeRatioRule_fails ERROR_THRESHOLD b c.
Proof.
  intros Hb. unfold out_of_tolerance, RelativeRatioRule_fails.
  by rewrite mul_one_l, of_int_1.
Qed.

(** A value compared with itself passes the ratio test. *)
Lemma self_within_tolerance (b : double) : valid b = true -> out_of_tolerance b b = false.
Proof.
  intros Hb. unfold out_of_tolerance. rewrite mul_one_l by done.
  by destruct (div_self b) as [-> | ->].
Qed.

(* ===================================================================== *)
(** ** What the blocks of the function log *)
(* ===================================================================== *)

Lemma record_nil (s : state) : record [] s = s.
Proof. destruct s as [n msgs]. unfold record. cbn. f_equal; [lia | apply app_nil_r]. Qed.

Lemma record_app (l1 l2 : list log_entry) (s : state) :
  record l2 (record l1 s) = record (l1 ++ l2) s.
Proof.
  unfold record. cbn. rewrite length_app, <- app_assoc. f_equal. lia.
Qed.

Lemma logs_skip : logs (mret ()) [].
Proof. intros s. by rewrite record_nil. Qed.

Lemma logs_failure (e : log_entry) : logs (LOG_ERROR e;; incr_numberOfFailures) [e].
Proof. by intros s. Qed.

Lemma bind_logs {B : Type} (m : M unit) (l : list log_entry) (k : M B) (s : state) :
  logs m l -> (m;; k) s = k (record l s).
Proof. intros Hm. unfold mbind, M_bind. by rewrite Hm. Qed.

Lemma bind_non_null_some {A B : Type} (a : A) (e : log_entry) (k : A -> M B) (s : state) :
  (non_null (Some a) e ≫= k) s = k a s.
Proof. reflexivity. Qed.

Lemma bind_non_null_none {A B : Type} (e : log_entry) (k : A -> M B) (s : state) :
  (non_null None e ≫= k) s = (Returned (numberOfFailures s + 1)%Z, record [e] s).
Proof. unfold record. cbn. reflexivity. Qed.

Lemma logs_seq (m1 m2 : M unit) (l1 l2 : list log_entry) :
  logs m1 l1 -> logs m2 l2 -> logs (m1;; m2) (l1 ++ l2).
Proof. intros H1 H2 s. by rewrite (bind_logs _ _ _ _ H1), H2, record_app. Qed.

Lemma logs_ratio_check (e : log_entry) (b c : double) :
  logs (ratio_check e b c) (ratio_log e b c).
Proof.
  unfold ratio_check, ratio_log, out_of_tolerance. cbv zeta.
  destruct (_ || _); [apply logs_failure | apply logs_skip].
Qed.

Lemma logs_for_range (body : nat -> M unit) (f : nat -> list log_entry) :
  (forall i, logs (body i) (f i)) ->
  forall count from, logs (for_range from count body) (flat_map f (seq from count)).
Proof.
  intros Hbody. induction count as [|k IH]; intros from; cbn [for_range seq flat_map].
  - apply logs_skip.
  - apply logs_seq; [apply Hbody | apply IH].
Qed.

Lemma logs_vector_block (metric : string) (n : nat) (eb ec : vtkXMLDataElement) :
  logs (vector_block metric n eb ec)
       (vector_log metric n (GetVectorAttribute eb metric n) (GetVectorAttribute ec metric n)).
Proof.
  unfold vector_block, vector_log.
  destruct (GetVectorAttribute eb metric n) as [bl|]; [|apply logs_failure].
  destruct (GetVectorAttribute ec metric n) as [c|]; [|apply logs_failure].
  apply logs_for_range. intros i. apply logs_ratio_check.
Qed.

Lemma logs_confidence_block (metric : string) (eb ec : vtkXMLDataElement) :
  logs (confidence_block metric eb ec)
       (confidence_log metric (GetScalarAttribute eb "ValidationDataConfidenceLevel")
                              (GetScalarAttribute ec "ValidationDataConfidenceLevel")).
Proof.
  unfold confidence_block, confidence_log.
  destruct (GetScalarAttribute eb _) as [bl|]; [|apply logs_failure].
  destruct (GetScalarAttribute ec _) as [c|]; [|apply logs_failure].
  apply logs_ratio_check.
Qed.

Section BlockFacts.

Variable GetOrientationDifference : vtkMatrix4x4 -> vtkMatrix4x4 -> double.

Lemma logs_transform_block (eb ec : vtkXMLDataElement) (t r : Z) :
  logs (TransformImageToProbe_block GetOrientationDifference eb ec t r)
       (transform_log GetOrientationDifference
          (GetVectorAttribute eb "TransformImageToProbe" 16)
          (GetVectorAttribute ec "TransformImageToProbe" 16) t r).
Proof.
  unfold TransformImageToProbe_block, transform_log.
  destruct (GetVectorAttribute eb _ _) as [bl|]; [|apply logs_failure].
  destruct (GetVectorAttribute ec _ _) as [c|]; [|apply logs_failure].
  destruct (fill_matrices bl c) as [mb mc].
  unfold translation_log, rotation_log.
  apply logs_seq.
  - destruct (gtb _ _); [apply logs_failure | apply logs_skip].
  - destruct (gtb _ _); [apply logs_failure | apply logs_skip].
Qed.

(** An analysis block whose section is in both documents runs its two
    checks and falls through. *)
Lemma logs_analysis_block (section metric : string) (n : nat)
    (erb erc ab ac : vtkXMLDataElement) :
  FindNestedElementWithName erb section = Some ab ->
  FindNestedElementWithName erc section = Some ac ->
  logs (analysis_block section metric n erb erc)
       (vector_log metric n (GetVectorAttribute ab metric n) (GetVectorAttribute ac metric n)
        ++ confidence_log metric (GetScalarAttribute ab "ValidationDataConfidenceLevel")
                                 (GetScalarAttribute ac "ValidationDataConfidenceLevel")).
Proof.
  intros Hb Hc s. unfold analysis_block. rewrite Hb, Hc.
  rewrite bind_non_null_some; cbv beta. rewrite bind_non_null_some; cbv beta.
  apply logs_seq; [apply logs_vector_block | apply logs_confidence_block].
Qed.

(** An analysis block whose section is missing from a document logs one
    line and leaves the whole function. *)
Lemma analysis_block_returns (section metric : string) (n : nat)
    (erb erc : vtkXMLDataElement) (s : state) :
  FindNestedElementWithName erb section = None
  \/ FindNestedElementWithName erc section = None ->
  exists which,
    analysis_block section metric n erb erc s
    = (Returned (numberOfFailures s + 1)%Z, record [ReadingTagFailed which section] s)
    /\ which = match FindNestedElementWithName erb section with
               | Some _ => Current
               | None => Baseline
               end.
Proof.
  intros H. unfold analysis_block.
  destruct (FindNestedElementWithName erb section) as [ab|].
  - destruct H as [H|H]; [done|]. rewrite H.
    exists Current. by rewrite bind_non_null_some, bind_non_null_none.
  - exists Baseline. by rewrite bind_non_null_none.
Qed.

(** With both roots and the sections CalibrationResults,
    CalibrationTransform and ErrorReports in both documents, the function
    gets to the two analysis blocks, the transform check done. *)
Lemma run_reaches_error_reports
    (rb rc crb crc ctb ctc erb erc : vtkXMLDataElement) (t r : Z) :
  FindNestedElementWithName rb "CalibrationResults" = Some crb ->
  FindNestedElementWithName rc "CalibrationResults" = Some crc ->
  FindNestedElementWithName crb "CalibrationTransform" = Some ctb ->
  FindNestedElementWithName crc "CalibrationTransform" = Some ctc ->
  FindNestedElementWithName rb "ErrorReports" = Some erb ->
  FindNestedElementWithName rc "ErrorReports" = Some erc ->
  run GetOrientationDifference (Some rb) (Some rc) t r
  = (analysis_block "PointReconstructionErrorAnalysis" "PRE" 9 erb erc;;
     analysis_block "PointLineDistanceErrorAnalysis" "PLDE" 3 erb erc;;
     return_numberOfFailures)
      (record (transform_log GetOrientationDifference
                 (GetVectorAttribute ctb "TransformImageToProbe" 16)
                 (GetVectorAttribute ctc "TransformImageToProbe" 16) t r)
              (State 0 [])).
Proof.
  intros Hcrb Hcrc Hctb Hctc Herb Herc.
  unfold run, CompareCalibrationResultsWithBaseline_body.
  do 2 (rewrite bind_non_null_some; cbv beta).
  rewrite Hcrb, Hcrc. do 2 (rewrite bind_non_null_some; cbv beta).
  rewrite Hctb, Hctc. do 2 (rewrite bind_non_null_some; cbv beta).
  rewrite (bind_logs _ _ _ _ (logs_transform_block ctb ctc t r)).
  rewrite Herb, Herc. by do 2 (rewrite bind_non_null_some; cbv beta).
Qed.

(** When both documents have all their sections, the function visits
    every block and returns the length of its log. *)
Lemma run_all_sections (rb rc : vtkXMLDataElement) (fb fc : document_fields) (t r : Z) :
  fields_of rb = Some fb -> fields_of rc = Some fc ->
  let l := fields_log GetOrientationDifference fb fc t r in
  run GetOrientationDifference (Some rb) (Some rc) t r
  = (Returned (Z.of_nat (length l)), State (Z.of_nat (length l)) l).
Proof.
  unfold fields_of. intros Hb Hc.
  destruct (FindNestedElementWithName rb "CalibrationResults") as [crb|] eqn:Hcrb; [|done].
  destruct (FindNestedElementWithName rc "CalibrationResults") as [crc|] eqn:Hcrc; [|done].
  cbn in Hb, Hc.
  destruct (FindNestedElementWithName crb "CalibrationTransform") as [ctb|] eqn:Hctb; [|done].
  destruct (FindNestedElementWithName crc "CalibrationTransform") as [ctc|] eqn:Hctc; [|done].
  cbn in Hb, Hc.
  destruct (FindNestedElementWithName rb "ErrorReports") as [erb|] eqn:Herb; [|done].
  destruct (FindNestedElementWithName rc "ErrorReports") as [erc|] eqn:Herc; [|done].
  cbn in Hb, Hc.
  destruct (FindNestedElementWithName erb "PointReconstructionErrorAnalysis")
    as [prb|] eqn:Hprb; [|done].
  destruct (FindNestedElementWithName erc "PointReconstructionErrorAnalysis")
    as [prc|] eqn:Hprc; [|done].
  cbn in Hb, Hc.
  destruct (FindNestedElementWithName erb "PointLineDistanceErrorAnalysis")
    as [plb|] eqn:Hplb; [|done].
  destruct (FindNestedElementWithName erc "PointLineDistanceErrorAnalysis")
    as [plc|] eqn:Hplc; [|done].
  cbn in Hb, Hc. injection Hb as <-. injection Hc as <-.
  rewrite (run_reaches_error_reports _ _ _ _ _ _ _ _ t r Hcrb Hcrc Hctb Hctc Herb Herc).
  rewrite (bind_logs _ _ _ _ (logs_analysis_block _ "PRE" 9 _ _ _ _ Hprb Hprc)).
  rewrite (bind_logs _ _ _ _ (logs_analysis_block _ "PLDE" 3 _ _ _ _ Hplb Hplc)).
  rewrite !record_app. unfold fields_log. cbn [TransformImageToProbe PRE PRE_confidence
    PLDE PLDE_confidence]. rewrite <- !app_assoc. reflexivity.
Qed.

Lemma within_logs (m : M unit) (l : list log_entry) (k : nat) :
  logs m l -> (length l <= k)%nat -> within k 0 m.
Proof. intros Hm Hk s. exists l. unfold within. rewrite !Hm. by cbn. Qed.

Lemma within_non_null {A : Type} (p : option A) (e : log_entry) : within 0 1 (non_null p e).
Proof.
  intros s. destruct p as [a|].
  - exists []. rewrite record_nil. cbn. split; [done | lia].
  - exists [e]. cbn. repeat split; lia.
Qed.

Lemma within_return {A : Type} : within 0 0 (@return_numberOfFailures A).
Proof. intros s. exists []. rewrite record_nil. cbn. repeat split; lia. Qed.

Lemma within_bind {A B : Type} (m : M A) (f : A -> M B) (kn1 kr1 kn2 kr2 : nat) :
  within kn1 kr1 m -> (forall a, within kn2 kr2 (f a)) ->
  within (kn1 + kn2) (Nat.max kr1 (kn1 + kr2)) (m ≫= f).
Proof.
  intros Hm Hf s. unfold mbind, M_bind.
  destruct (Hm s) as (l1 & Hs1 & H1). destruct (m s) as [[a|v] s1]; cbn in Hs1, H1.
  - destruct (Hf a s1) as (l2 & Hs2 & H2). exists (l1 ++ l2).
    rewrite <- record_app, <- Hs1. split; [done|].
    destruct (f a s1) as [[b|v] s2]; cbn in H2 |- *; rewrite length_app; lia.
  - exists l1. cbn. split; [done|]. split; [apply H1 | lia].
Qed.

Lemma within_weaken {A : Type} (m : M A) (kn kr kn' kr' : nat) :
  within kn kr m -> (kn <= kn')%nat -> (kr <= kr')%nat -> within kn' kr' m.
Proof.
  intros Hm Hn Hr s. destruct (Hm s) as (l & Hs & H). exists l. split; [done|].
  destruct (m s) as [[a|v] s1]; cbn in H |- *; [lia | split; [apply H | lia]].
Qed.

Lemma length_ratio_log (e : log_entry) (b c : double) : (length (ratio_log e b c) <= 1)%nat.
Proof. unfold ratio_log. destruct (out_of_tolerance b c); cbn; lia. Qed.

Lemma length_vector_log (metric : string) (n : nat) (bl c : option (list double)) :
  (length (vector_log metric n bl c) <= Nat.max 1 n)%nat.
Proof.
  destruct bl as [bl|], c as [c|]; cbn [vector_log length]; try lia.
  transitivity (length (seq 0 n)); [|rewrite length_seq; lia].
  generalize (seq 0 n). intros l. induction l as [|i l IH]; cbn [flat_map length]; [lia|].
  rewrite length_app.
  pose proof (length_ratio_log (ElementMismatch metric i (at_index c i) (at_index bl i))
                (at_index bl i) (at_index c i)). lia.
Qed.

Lemma length_confidence_log (metric : string) (bl c : option double) :
  (length (confidence_log metric bl c) <= 1)%nat.
Proof. destruct bl, c; cbn [confidence_log length]; try lia. apply length_ratio_log. Qed.

Lemma length_transform_log (bl c : option (list double)) (t r : Z) :
  (length (transform_log GetOrientationDifference bl c t r) <= 2)%nat.
Proof.
  destruct bl as [bl|], c as [c|]; cbn [transform_log length]; try lia.
  destruct (fill_matrices bl c) as [mb mc]. rewrite length_app.
  unfold translation_log, rotation_log. do 2 destruct (gtb _ _); cbn; lia.
Qed.

Lemma within_analysis_block (section metric : string) (n : nat)
    (erb erc : vtkXMLDataElement) :
  within (Nat.max 1 n + 1) 1 (analysis_block section metric n erb erc).
Proof.
  unfold analysis_block.
  eapply within_weaken.
  - eapply within_bind; [apply within_non_null | intros ab].
    eapply within_bind; [apply within_non_null | intros ac].
    eapply (within_logs _ _ (Nat.max 1 n + 1)).
    + apply logs_seq; [apply logs_vector_block | apply logs_confidence_block].
    + rewrite length_app.
      pose proof (length_vector_log metric n (GetVectorAttribute ab metric n)
                    (GetVectorAttribute ac metric n)).
      pose proof (length_confidence_log metric
                    (GetScalarAttribute ab "ValidationDataConfidenceLevel")
                    (GetScalarAttribute ac "ValidationDataConfidenceLevel")). lia.
  - lia.
  - lia.
Qed.

Lemma within_body (b c : option vtkXMLDataElement) (t r : Z) :
  within 16 16 (CompareCalibrationResultsWithBaseline_body GetOrientationDifference b c t r).
Proof.
  unfold CompareCalibrationResultsWithBaseline_body.
  eapply within_weaken.
  - do 6 (eapply within_bind; [apply within_non_null | intros ?]).
    eapply within_bind;
      [exact (within_logs _ _ 2 (logs_transform_block _ _ _ _) (length_transform_log _ _ _ _))
      | intros _].
    do 2 (eapply within_bind; [apply within_non_null | intros ?]).
    do 2 (eapply within_bind; [apply within_analysis_block | intros _]).
    apply within_return.
  - cbn. lia.
  - cbn. lia.
Qed.

(** The value returned is the number of lines logged, on every input, and
    at most 16: the counter, an [int], does not wrap around. *)
Lemma returned_count_is_log_length (b c : option vtkXMLDataElement) (t r : Z) :
  CompareCalibrationResultsWithBaseline GetOrientationDifference b c t r
  = Z.of_nat (length (CompareLog GetOrientationDifference b c t r))
  /\ (0 <= CompareCalibrationResultsWithBaseline GetOrientationDifference b c t r <= 16)%Z.
Proof.
  unfold CompareCalibrationResultsWithBaseline, CompareLog, run.
  destruct (within_body b c t r (State 0 [])) as (l & Hs & H).
  destruct (CompareCalibrationResultsWithBaseline_body _ b c t r (State 0 []))
    as [[[]|v] s]; cbn in Hs, H.
  destruct H as [-> H]. rewrite Hs. unfold record. cbn. lia.
Qed.

End BlockFacts.

(* ===================================================================== *)
(** ** Matrices, positions and vectors compared with themselves *)
(* ===================================================================== *)

Lemma fill_matrices_matrix_of (bl c : list double) :
  fill_matrices bl c = (matrix_of bl, matrix_of c).
Proof. reflexivity. Qed.

(** The loops put [a[4*i + 3]] in row [i] of the translation column. *)
Lemma translation_column_matrix_of (a : list double) :
  GetElement (matrix_of a) 0 3 = at_index a 3
  /\ GetElement (matrix_of a) 1 3 = at_index a 7
  /\ GetElement (matrix_of a) 2 3 = at_index a 11.
Proof. repeat split; reflexivity. Qed.

Lemma GetPositionDifference_GetCalibrationError (a b : vtkMatrix4x4) :
  GetPositionDifference a b = GetCalibrationError a b.
Proof. reflexivity. Qed.

(** The distance of a position to itself is [+0], or NaN when a coordinate
    is not finite; in neither case is it above zero. *)
Lemma position_difference_self (m : vtkMatrix4x4) :
  gtb (GetPositionDifference m m) zero = false.
Proof.
  unfold GetPositionDifference.
  destruct (sub_self (GetElement m 0 3)) as [-> | ->],
           (sub_self (GetElement m 1 3)) as [-> | ->],
           (sub_self (GetElement m 2 3)) as [-> | ->]; reflexivity.
Qed.

Lemma at_index_valid (v : list double) (i : nat) :
  all_valid v = true -> valid (at_index v i) = true.
Proof.
  unfold all_valid, at_index. revert i.
  induction v as [|x v IH]; intros [|i] Hv; cbn in *; try done.
  - by apply andb_prop in Hv as [? _].
  - apply andb_prop in Hv as [_ ?]. by apply IH.
Qed.

Lemma flat_map_nil {A B : Type} (f : A -> list B) (l : list A) :
  (forall x, In x l -> f x = []) -> flat_map f l = [].
Proof.
  induction l as [|a l IH]; intros H; cbn; [done|].
  rewrite (H a) by (by left). apply IH. intros x Hx. apply H. by right.
Qed.


Lemma vector_log_self (metric : string) (n : nat) (v : list double) :
  all_valid v = true -> vector_log metric n (Some v) (Some v) = [].
Proof.
  intros Hv. cbn. apply flat_map_nil. intros i _.
  unfold ratio_log. by rewrite self_within_tolerance by by apply at_index_valid.
Qed.

Lemma confidence_log_self (metric : string) (d : double) :
  valid d = true -> confidence_log metric (Some d) (Some d) = [].
Proof. intros Hd. cbn. unfold ratio_log. by rewrite self_within_tolerance. Qed.


(* ===================================================================== *)
(** ** Properties of the comparison *)
(* ===================================================================== *)

Section Properties.

Variable GetOrientationDifference : vtkMatrix4x4 -> vtkMatrix4x4 -> double.

Local Abbreviation Compare := (CompareCalibrationResultsWithBaseline GetOrientationDifference).
Local Abbreviation Log := (CompareLog GetOrientationDifference).
Local Abbreviation transform_block := (TransformImageToProbe_block GetOrientationDifference).

Lemma compare_all_sections (rb rc : vtkXMLDataElement) (fb fc : document_fields) (t r : Z) :
  fields_of rb = Some fb -> fields_of rc = Some fc ->
  Log (Some rb) (Some rc) t r = fields_log GetOrientationDifference fb fc t r
  /\ Compare (Some rb) (Some rc) t r
     = Z.of_nat (length (fields_log GetOrientationDifference fb fc t r)).
Proof.
  intros Hb Hc. unfold CompareLog, CompareCalibrationResultsWithBaseline.
  by rewrite (run_all_sections _ _ _ _ _ t r Hb Hc).
Qed.

(** A transform compared with itself logs nothing, for thresholds that
    are not negative and an orientation difference that is not above
    zero. *)
Lemma transform_log_self (a : list double) (t r : Z) :
  (0 <= t)%Z -> (0 <= r)%Z ->
  gtb (GetOrientationDifference (matrix_of a) (matrix_of a)) zero = false ->
  transform_log GetOrientationDifference (Some a) (Some a) t r = [].
Proof.
  intros Ht Hr Hrot. unfold transform_log. rewrite fill_matrices_matrix_of.
  unfold translation_log, rotation_log.
  rewrite (not_above_threshold _ t Ht (position_difference_self _)).
  by rewrite (not_above_threshold _ r Hr Hrot).
Qed.

(** C1, as the function has it: when both files were read, both documents
    have their CalibrationResults, CalibrationTransform and ErrorReports
    sections, and the PointReconstructionErrorAnalysis section is missing
    from either document, the function logs one line for the missing
    section after the lines of the transform check and returns at once;
    the value returned counts those lines, and nothing of the
    PointLineDistanceErrorAnalysis branch is run. *)
Theorem missing_PRE_section_returns
    (rb rc crb crc ctb ctc erb erc : vtkXMLDataElement) (t r : Z) :
  FindNestedElementWithName rb "CalibrationResults" = Some crb ->
  FindNestedElementWithName rc "CalibrationResults" = Some crc ->
  FindNestedElementWithName crb "CalibrationTransform" = Some ctb ->
  FindNestedElementWithName crc "CalibrationTransform" = Some ctc ->
  FindNestedElementWithName rb "ErrorReports" = Some erb ->
  FindNestedElementWithName rc "ErrorReports" = Some erc ->
  FindNestedElementWithName erb "PointReconstructionErrorAnalysis" = None
  \/ FindNestedElementWithName erc "PointReconstructionErrorAnalysis" = None ->
  let before :=
    transform_log GetOrientationDifference
      (GetVectorAttribute ctb "TransformImageToProbe" 16)
      (GetVectorAttribute ctc "TransformImageToProbe" 16) t r in
  let which :=
    match FindNestedElementWithName erb "PointReconstructionErrorAnalysis" with
    | Some _ => Current
    | None => Baseline
    end in
  Log (Some rb) (Some rc) t r
  = before ++ [ReadingTagFailed which "PointReconstructionErrorAnalysis"]
  /\ Compare (Some rb) (Some rc) t r = (Z.of_nat (length before) + 1)%Z.
Proof.
  intros Hcrb Hcrc Hctb Hctc Herb Herc Hmissing before which. subst before which.
  assert (Hlog : Log (Some rb) (Some rc) t r
                 = transform_log GetOrientationDifference
                     (GetVectorAttribute ctb "TransformImageToProbe" 16)
                     (GetVectorAttribute ctc "TransformImageToProbe" 16) t r
                   ++ [ReadingTagFailed
                         match FindNestedElementWithName erb
                                 "PointReconstructionErrorAnalysis" with
                         | Some _ => Current
                         | None => Baseline
                         end "PointReconstructionErrorAnalysis"]).
  { unfold CompareLog.
    rewrite (run_reaches_error_reports _ _ _ _ _ _ _ _ _ t r Hcrb Hcrc Hctb Hctc Herb Herc).
    unfold mbind at 1, M_bind.
    edestruct analysis_block_returns as (which & -> & ->); [exact Hmissing|].
    reflexivity. }
  split; [exact Hlog|].
  rewrite (proj1 (returned_count_is_log_length _ _ _ _ _)), Hlog, length_app.
  cbn [length]. lia.
Qed.

(** C3: on every pair of a baseline value [b] (a binary64 number) and a
    current value [c], a component of a vector metric and a confidence
    level log a failure exactly when the ratio [b / c] is above
    [1 + 0.05] or below [1 - 0.05]; the tolerance is the constant
    [ERROR_THRESHOLD], the binary64 number nearest to 0.05, and is not an
    argument of the function. *)
Theorem relative_ratio_rule :
  (forall (metric : string) (n : nat) (eb ec : vtkXMLDataElement) (bl cl : list double),
      GetVectorAttribute eb metric n = Some bl ->
      GetVectorAttribute ec metric n = Some cl ->
      all_valid bl = true ->
      logs (vector_block metric n eb ec)
           (flat_map
              (fun i =>
                 if RelativeRatioRule_fails ERROR_THRESHOLD (at_index bl i) (at_index cl i)
                 then [ElementMismatch metric i (at_index cl i) (at_index bl i)]
                 else [])
              (seq 0 n)))
  /\ (forall (metric : string) (eb ec : vtkXMLDataElement) (b c : double),
        GetScalarAttribute eb "ValidationDataConfidenceLevel" = Some b ->
        GetScalarAttribute ec "ValidationDataConfidenceLevel" = Some c ->
        valid b = true ->
        logs (confidence_block metric eb ec)
             (if RelativeRatioRule_fails ERROR_THRESHOLD b c
              then [ConfidenceLevelMismatch metric c b] else []))
  /\ ERROR_THRESHOLD = decimal 5 100.
Proof.
  split; [|split].
  - intros metric n eb ec bl cl Hbl Hcl Hvalid s.
    rewrite logs_vector_block, Hbl, Hcl. cbn [vector_log].
    do 2 f_equal. apply flat_map_ext. intros i. unfold ratio_log.
    by rewrite out_of_tolerance_rule by by apply at_index_valid.
  - intros metric eb ec b c Hb Hc Hvb s.
    rewrite logs_confidence_block, Hb, Hc. cbn [confidence_log].
    unfold ratio_log. by rewrite out_of_tolerance_rule.
  - symmetry. apply ERROR_THRESHOLD_nearest.
Qed.

(** C4: the transform check logs a translation failure exactly when the
    translation error is strictly above the translation threshold: an
    error equal to the threshold logs nothing, an error above it logs one
    line.  The rotation error is checked against the rotation threshold by
    the same strict comparison. *)
Theorem threshold_boundary (eb ec : vtkXMLDataElement) (bl cl : list double) (t r : Z) :
  GetVectorAttribute eb "TransformImageToProbe" 16 = Some bl ->
  GetVectorAttribute ec "TransformImageToProbe" 16 = Some cl ->
  let translationError := GetPositionDifference (matrix_of bl) (matrix_of cl) in
  let rotationError := GetOrientationDifference (matrix_of bl) (matrix_of cl) in
  logs (transform_block eb ec t r)
       (translation_log translationError t ++ rotation_log rotationError r)
  /\ (translationError = of_int t -> translation_log translationError t = [])
  /\ (gtb translationError (of_int t) = true ->
      translation_log translationError t = [TranslationErrorTooHigh translationError t])
  /\ (rotationError = of_int r -> rotation_log rotationError r = [])
  /\ (gtb rotationError (of_int r) = true ->
      rotation_log rotationError r = [RotationErrorTooHigh rotationError r]).
Proof.
  intros Hbl Hcl translationError rotationError. repeat split.
  - intros s. by rewrite logs_transform_block, Hbl, Hcl.
  - intros ->. unfold translation_log. by rewrite gtb_irrefl.
  - intros H. unfold translation_log. by rewrite H.
  - intros ->. unfold rotation_log. by rewrite gtb_irrefl.
  - intros H. unfold rotation_log. by rewrite H.
Qed.


(** C6: when the baseline has the PRE attribute and the current document
    does not, the PRE check logs the one line "Current PRE is missing" and
    compares no component; the PRE confidence level and the whole PLDE
    analysis are checked after it as usual.  When the current document is
    the (valid) baseline without its PRE attribute, that line is the only
    one after those of the transform check, and with thresholds that are
    not negative the function returns 1. *)
Theorem missing_PRE_attribute
    (rb rc : vtkXMLDataElement) (fb fc : document_fields) (p : list double) (t r : Z) :
  fields_of rb = Some fb ->
  fields_of rc = Some fc ->
  PRE fb = Some p ->
  PRE fc = None ->
  Log (Some rb) (Some rc) t r
  = transform_log GetOrientationDifference
      (TransformImageToProbe fb) (TransformImageToProbe fc) t r
    ++ [AttributeMissing Current "PRE"]
    ++ confidence_log "PRE" (PRE_confidence fb) (PRE_confidence fc)
    ++ vector_log "PLDE" 3 (PLDE fb) (PLDE fc)
    ++ confidence_log "PLDE" (PLDE_confidence fb) (PLDE_confidence fc)
  /\ (valid_fields fb = true -> fc = without_PRE fb ->
      Log (Some rb) (Some rc) t r
      = transform_log GetOrientationDifference
          (TransformImageToProbe fb) (TransformImageToProbe fb) t r
        ++ [AttributeMissing Current "PRE"]
      /\ ((0 <= t)%Z -> (0 <= r)%Z ->
          (forall a, TransformImageToProbe fb = Some a ->
             gtb (GetOrientationDifference (matrix_of a) (matrix_of a)) zero = false) ->
          Compare (Some rb) (Some rc) t r = 1%Z)).
Proof.
  intros Hb Hc Hp Hnone.
  destruct (compare_all_sections rb rc _ _ t r Hb Hc) as [Hlog Hcount].
  assert (Hlogs : fields_log GetOrientationDifference fb fc t r
                  = transform_log GetOrientationDifference
                      (TransformImageToProbe fb) (TransformImageToProbe fc) t r
                    ++ [AttributeMissing Current "PRE"]
                    ++ confidence_log "PRE" (PRE_confidence fb) (PRE_confidence fc)
                    ++ vector_log "PLDE" 3 (PLDE fb) (PLDE fc)
                    ++ confidence_log "PLDE" (PLDE_confidence fb) (PLDE_confidence fc)).
  { unfold fields_log. by rewrite Hp, Hnone. }
  rewrite Hlog, Hcount, Hlogs. split; [done|].
  intros Hvalid ->.
  destruct fb as [[a|] [p'|] [pc|] [l|] [lc|]]; try done.
  cbn in Hvalid. repeat (apply andb_prop in Hvalid as [Hvalid ?]).
  cbn [without_PRE TransformImageToProbe PRE PRE_confidence PLDE PLDE_confidence].
  rewrite vector_log_self, !confidence_log_self by done. split; [done|].
  intros Ht Hr Hrot.
  by rewrite (transform_log_self a t r Ht Hr (Hrot a eq_refl)).
Qed.

(** C9: when an attribute compared in pairs (TransformImageToProbe, PRE,
    PLDE, either ValidationDataConfidenceLevel) is missing from the
    baseline element, its check logs one line and counts one failure
    whatever the current element is, so also when the attribute is missing
    from both: the current element is not looked at. *)
Theorem baseline_attribute_missing_counts_once
    (eb : vtkXMLDataElement) (metric : string) (n : nat) (t r : Z) :
  (GetVectorAttribute eb "TransformImageToProbe" 16 = None ->
   forall ec, logs (transform_block eb ec t r)
                   [AttributeMissing Baseline "TransformImageToProbe"])
  /\ (GetVectorAttribute eb metric n = None ->
      forall ec, logs (vector_block metric n eb ec) [AttributeMissing Baseline metric])
  /\ (GetScalarAttribute eb "ValidationDataConfidenceLevel" = None ->
      forall ec, logs (confidence_block metric eb ec)
                      [AttributeMissing Baseline (metric +:+ " ValidationDataConfidenceLevel")])
  /\ (forall e s, numberOfFailures (record [e] s) = (numberOfFailures s + 1)%Z).
Proof.
  repeat split.
  - intros H ec s. by rewrite logs_transform_block, H.
  - intros H ec s. by rewrite logs_vector_block, H.
  - intros H ec s. by rewrite logs_confidence_block, H.
Qed.

(** C10: the ratio is computed without a test of the current value.  A
    current value of zero (of either sign) under a finite non-zero
    baseline value makes the ratio an infinity, which is logged as a
    failure; zero over zero makes it NaN, which is not above [1 + 0.05]
    and not below [1 - 0.05], and logs nothing.  A pair of documents with
    all sections reaches the division by zero. *)
Theorem division_by_zero_in_ratio
    (e : log_entry) (sb : bool) (m : positive) (ex : Z) (sc : bool) :
  valid (S754_finite sb m ex) = true ->
  div (mul one (S754_finite sb m ex)) (S754_zero sc) = S754_infinity (xorb sb sc)
  /\ logs (ratio_check e (S754_finite sb m ex) (S754_zero sc)) [e]
  /\ (forall s s', div (mul one (S754_zero s)) (S754_zero s') = nan
                   /\ logs (ratio_check e (S754_zero s) (S754_zero s')) [])
  /\ In (ElementMismatch "PLDE" 0 zero one)
        (Log (Some scenario_baseline)
             (Some (make_document
                      (Fields (TransformImageToProbe scenario_fields) (PRE scenario_fields)
                              (PRE_confidence scenario_fields) (Some (replicate 3 zero))
                              (PLDE_confidence scenario_fields))))
             0 0).
Proof.
  intros Hv. rewrite mul_one_l by done. split; [reflexivity|]. split; [|split].
  - intros s. rewrite logs_ratio_check. unfold ratio_log, out_of_tolerance.
    rewrite mul_one_l by done. by destruct sb, sc.
  - intros s s'. split; [by destruct s, s'|].
    intros st. rewrite logs_ratio_check. by destruct s, s'.
  - destruct (compare_all_sections scenario_baseline
                (make_document
                   (Fields (TransformImageToProbe scenario_fields) (PRE scenario_fields)
                           (PRE_confidence scenario_fields) (Some (replicate 3 zero))
                           (PLDE_confidence scenario_fields)))
                _ _ 0 0 eq_refl eq_refl) as [-> _].
    unfold fields_log. rewrite !in_app_iff. do 3 right. left.
    vm_compute. by left.
Qed.


End Properties.

(* ===================================================================== *)
(** ** The properties on sample documents *)
(* ===================================================================== *)

(** The current document of the end-to-end scenario of section 8: the
    baseline with its translation shifted by 0.2 along x. *)
Example end_to_end_scenario :
  CompareLog no_rotation
    (Some scenario_baseline)
    (Some (make_document
             (Fields (Some (translation_by (decimal 2 10) zero zero))
                     (PRE scenario_fields) (PRE_confidence scenario_fields)
                     (PLDE scenario_fields) (PLDE_confidence scenario_fields))))
    0 1
  = [TranslationErrorTooHigh (decimal 2 10) 0].
Proof. vm_compute. reflexivity. Qed.

(** With the baseline complete and the current document lacking its
    PointReconstructionErrorAnalysis section, the function logs the missing
    section and nothing of PLDE, although the three PLDE components of the
    current document are zero and each of them fails the ratio test. *)
Lemma exit_is_per_section_fails :
  ~ exit_is_per_section no_rotation scenario_baseline without_PRE_section 0 0.
Proof.
  intros H.
  edestruct H as (before & which & Hlog); [reflexivity | reflexivity | by right |].
  change (CompareLog no_rotation (Some scenario_baseline) (Some without_PRE_section) 0 0)
    with [ReadingTagFailed Current "PointReconstructionErrorAnalysis"] in Hlog.
  match type of Hlog with
  | _ = _ ++ _ ++ block_log ?m =>
      change (block_log m)
        with [ElementMismatch "PLDE" 0 zero one; ElementMismatch "PLDE" 1 zero one;
              ElementMismatch "PLDE" 2 zero one] in Hlog
  end.
  apply (f_equal length) in Hlog. rewrite !length_app in Hlog. cbn [length] in Hlog. lia.
Qed.

Lemma missing_PRE_section_returns_witness :
  CompareLog no_rotation (Some scenario_baseline) (Some without_PRE_section) 0 0
  = [ReadingTagFailed Current "PointReconstructionErrorAnalysis"]
  /\ CompareCalibrationResultsWithBaseline no_rotation
       (Some scenario_baseline) (Some without_PRE_section) 0 0 = 1%Z.
Proof.
  exact (missing_PRE_section_returns no_rotation scenario_baseline without_PRE_section
           _ _ _ _ _ _ 0 0 eq_refl eq_refl eq_refl eq_refl eq_refl eq_refl
           (or_intror eq_refl)).
Defined.

Lemma relative_ratio_rule_witness :
  logs (vector_block "PRE" 9 sample_PRE_baseline sample_PRE_current)
       [ElementMismatch "PRE" 4 (of_int 2) one]
  /\ logs (confidence_block "PRE" sample_PRE_baseline sample_PRE_current)
          [ConfidenceLevelMismatch "PRE" (decimal 80 100) (decimal 95 100)].
Proof.
  destruct relative_ratio_rule as (Hvector & Hconfidence & _).
  split.
  - exact (Hvector "PRE" 9%nat sample_PRE_baseline sample_PRE_current
             (replicate 9 one) (<[4%nat := of_int 2]> (replicate 9 one))
             eq_refl eq_refl eq_refl).
  - exact (Hconfidence "PRE" sample_PRE_baseline sample_PRE_current
             (decimal 95 100) (decimal 80 100) eq_refl eq_refl eq_refl).
Defined.

(** A translation error of 5 passes the threshold 5 and fails the
    threshold 4. *)
Lemma threshold_boundary_witness :
  GetPositionDifference (matrix_of (translation_by (of_int 3) (of_int 4) zero))
                        (matrix_of (translation_by zero zero zero)) = of_int 5
  /\ logs (TransformImageToProbe_block no_rotation
             (transform_element (translation_by (of_int 3) (of_int 4) zero))
             (transform_element (translation_by zero zero zero)) 5 0) []
  /\ logs (TransformImageToProbe_block no_rotation
             (transform_element (translation_by (of_int 3) (of_int 4) zero))
             (transform_element (translation_by zero zero zero)) 4 0)
          [TranslationErrorTooHigh (of_int 5) 4].
Proof.
  split; [reflexivity|]. split.
  - destruct (threshold_boundary no_rotation
                (transform_element (translation_by (of_int 3) (of_int 4) zero))
                (transform_element (translation_by zero zero zero))
                _ _ 5 0 eq_refl eq_refl) as (Hlogs & Hequal & _ & Hrot & _).
    rewrite (Hequal eq_refl), (Hrot eq_refl) in Hlogs. exact Hlogs.
  - destruct (threshold_boundary no_rotation
                (transform_element (translation_by (of_int 3) (of_int 4) zero))
                (transform_element (translation_by zero zero zero))
                _ _ 4 0 eq_refl eq_refl) as (Hlogs & _ & Habove & Hrot & _).
    rewrite (Habove eq_refl), (Hrot eq_refl) in Hlogs. exact Hlogs.
Defined.


Lemma missing_PRE_attribute_witness :
  CompareLog no_rotation (Some scenario_baseline)
    (Some (make_document (without_PRE scenario_fields))) 0 0
  = [AttributeMissing Current "PRE"]
  /\ CompareCalibrationResultsWithBaseline no_rotation (Some scenario_baseline)
       (Some (make_document (without_PRE scenario_fields))) 0 0 = 1%Z.
Proof.
  destruct (missing_PRE_attribute no_rotation scenario_baseline
              (make_document (without_PRE scenario_fields))
              scenario_fields (without_PRE scenario_fields) (replicate 9 one) 0 0
              eq_refl eq_refl eq_refl eq_refl) as [_ H].
  destruct (H eq_refl eq_refl) as [Hlog Hcount].
  split; [exact Hlog|].
  apply Hcount; [lia | lia | reflexivity].
Defined.


Lemma baseline_attribute_missing_counts_once_witness :
  logs (TransformImageToProbe_block no_rotation empty_element empty_element 0 0)
       [AttributeMissing Baseline "TransformImageToProbe"]
  /\ logs (vector_block "PRE" 9 empty_element sample_PRE_current)
          [AttributeMissing Baseline "PRE"]
  /\ logs (confidence_block "PLDE" empty_element empty_element)
          [AttributeMissing Baseline "PLDE ValidationDataConfidenceLevel"].
Proof.
  destruct (baseline_attribute_missing_counts_once no_rotation empty_element "PRE" 9 0 0)
    as (Ht & Hv & _ & _).
  destruct (baseline_attribute_missing_counts_once no_rotation empty_element "PLDE" 3 0 0)
    as (_ & _ & Hc & _).
  split; [exact (Ht eq_refl empty_element)|].
  split; [exact (Hv eq_refl sample_PRE_current) | exact (Hc eq_refl empty_element)].
Defined.

Lemma division_by_zero_in_ratio_witness :
  div (mul one one) zero = S754_infinity false
  /\ logs (ratio_check (ElementMismatch "PLDE" 0 zero one) one zero)
          [ElementMismatch "PLDE" 0 zero one].
Proof.
  destruct (division_by_zero_in_ratio no_rotation (ElementMismatch "PLDE" 0 zero one)
              false 4503599627370496 (-52) false eq_refl) as (Hinf & Hlogs & _).
  split; [exact Hinf | exact Hlogs].
Defined.

(* ===================================================================== *)
(** ** More facts of binary64 arithmetic *)
(* ===================================================================== *)

Lemma shr_1_nonneg (mrs : shr_record) : (0 <= shr_m mrs)%Z -> (0 <= shr_m (shr_1 mrs))%Z.
Proof. destruct mrs as [[|[p|p|]|p] r s]; cbn; lia. Qed.

Lemma iter_shr_1_nonneg (n : positive) (mrs : shr_record) :
  (0 <= shr_m mrs)%Z -> (0 <= shr_m (SpecFloat.iter_pos shr_1 n mrs))%Z.
Proof.
  revert mrs. induction n as [n IH|n IH|]; intros mrs H; cbn.
  - by apply IH, IH, shr_1_nonneg.
  - by apply IH, IH.
  - by apply shr_1_nonneg.
Qed.

Lemma shr_fexp_nonneg (m e : Z) (l : location) :
  (0 <= m)%Z -> (0 <= shr_m (fst (shr_fexp prec emax m e l)))%Z.
Proof.
  intros Hm. unfold shr_fexp, shr.
  assert (0 <= shr_m (shr_record_of_loc m l))%Z by (by destruct l as [|[]]).
  destruct (_ - e)%Z; cbn [fst]; try done. by apply iter_shr_1_nonneg.
Qed.

Lemma round_nearest_even_nonneg (m : Z) (l : location) :
  (0 <= m)%Z -> (0 <= round_nearest_even m l)%Z.
Proof. intros Hm. destruct l as [|[]]; cbn; try lia. destruct (Z.even m); lia. Qed.

(** Rounding a non-negative mantissa gives a number of the sign asked for,
    never NaN. *)
Lemma binary_round_aux_has_sign (s : bool) (m e : Z) (l : location) :
  (0 <= m)%Z -> has_sign s (binary_round_aux prec emax s m e l).
Proof.
  intros Hm. unfold binary_round_aux.
  pose proof (shr_fexp_nonneg m e l Hm) as H1.
  destruct (shr_fexp prec emax m e l) as [mrs' e']. cbn [fst] in H1.
  pose proof (shr_fexp_nonneg _ e' loc_Exact
                (round_nearest_even_nonneg _ (loc_of_shr_record mrs') H1)) as H2.
  destruct (shr_fexp prec emax _ e' loc_Exact) as [mrs'' e'']. cbn [fst] in H2.
  destruct (shr_m mrs''); [done | | lia].
  by destruct (e'' <=? emax - prec)%Z.
Qed.

Lemma div_finite_has_sign (sb : bool) (mb : positive) (eb : Z) (sc : bool) (mc : positive) (ec : Z) :
  has_sign (xorb sb sc) (div (S754_finite sb mb eb) (S754_finite sc mc ec)).
Proof.
  unfold div, SFdiv, SFdiv_core_binary. cbv zeta.
  rewrite div_eucl_div_mod. apply binary_round_aux_has_sign.
  apply Z.div_pos; [|lia].
  destruct (_ - _ - _)%Z; try lia. apply Z.shiftl_nonneg. lia.
Qed.

Lemma tolerance_bounds :
  add (of_int 1) ERROR_THRESHOLD = S754_finite false 4728779608739021 (-52)
  /\ sub (of_int 1) ERROR_THRESHOLD = S754_finite false 8556839292003942 (-53).
Proof. split; reflexivity. Qed.

Lemma negative_out_of_tolerance (x : double) :
  has_sign true x ->
  gtb x (add (of_int 1) ERROR_THRESHOLD) || ltb x (sub (of_int 1) ERROR_THRESHOLD) = true.
Proof.
  intros Hx. destruct tolerance_bounds as [-> ->].
  destruct x as [s|s| |s m e]; cbn in Hx; try done; subst; reflexivity.
Qed.

Lemma digits2_pos_iter_xO (p k : positive) :
  digits2_pos (Pos.iter xO p k) = (digits2_pos p + k)%positive.
Proof.
  induction k as [|k IH] using Pos.peano_ind.
  - cbn. by rewrite Pos.add_1_r.
  - rewrite Pos.iter_succ. cbn [digits2_pos]. rewrite IH. by rewrite Pos.add_succ_r.
Qed.

Lemma Zpos_iter_xO (p k : positive) :
  Zpos (Pos.iter xO p k) = (Zpos p * 2 ^ Zpos k)%Z.
Proof.
  induction k as [|k IH] using Pos.peano_ind.
  - cbn. lia.
  - rewrite Pos.iter_succ, Pos2Z.inj_xO, IH, Pos2Z.inj_succ, Z.pow_succ_r by lia. lia.
Qed.

Lemma digits2_pos_lower (p : positive) : (2 ^ (Zpos (digits2_pos p) - 1) <= Zpos p)%Z.
Proof.
  induction p as [p IH|p IH|]; cbn [digits2_pos]; [| |cbn; lia].
  - rewrite Pos2Z.inj_succ. replace (Z.succ (Zpos (digits2_pos p)) - 1)%Z
      with (Z.succ (Zpos (digits2_pos p) - 1)) by lia.
    rewrite Z.pow_succ_r by lia. lia.
  - rewrite Pos2Z.inj_succ. replace (Z.succ (Zpos (digits2_pos p)) - 1)%Z
      with (Z.succ (Zpos (digits2_pos p) - 1)) by lia.
    rewrite Z.pow_succ_r by lia. lia.
Qed.

Lemma digits2_pos_int (p : positive) :
  (Zpos p <= 2 ^ 31)%Z -> (Zpos (digits2_pos p) <= 32)%Z.
Proof.
  intros Hp. pose proof (digits2_pos_lower p) as Hl.
  destruct (Z.le_gt_cases (Zpos (digits2_pos p)) 32) as [H|H]; [done|].
  assert (2 ^ 32 <= 2 ^ (Zpos (digits2_pos p) - 1))%Z by (apply Z.pow_le_mono_r; lia).
  lia.
Qed.

(** The [double] of a non-zero [int]: its magnitude shifted left to 53 bits. *)
Lemma binary_round_int (s : bool) (p : positive) :
  (Zpos p <= 2 ^ 31)%Z ->
  exists k, (Zpos k = 53 - Zpos (digits2_pos p))%Z
            /\ binary_round prec emax s p 0 = S754_finite s (Pos.iter xO p k) (Zneg k).
Proof.
  intros Hp. pose proof (digits2_pos_int p Hp) as Hd.
  destruct (53 - Zpos (digits2_pos p))%Z as [|k|k] eqn:Hk; try lia.
  exists k. split; [done|].
  assert (Hfexp : fexp prec emax (Zpos (digits2_pos p) + 0) = Zneg k).
  { unfold fexp, emin, prec, emax. lia. }
  unfold binary_round. rewrite Hfexp. unfold shl_align.
  rewrite Z.sub_0_r. cbv beta iota.
  unfold binary_round_aux, shr_fexp, Zdigits2.
  rewrite digits2_pos_iter_xO.
  assert (Hfexp' : fexp prec emax (Zpos (digits2_pos p + k) + Zneg k) = Zneg k).
  { unfold fexp, emin, prec, emax. lia. }
  rewrite Hfexp', Z.sub_diag. cbn [shr shr_record_of_loc shr_m loc_of_shr_record
    round_nearest_even Zdigits2].
  rewrite digits2_pos_iter_xO, Hfexp', Z.sub_diag. cbn [shr shr_m].
  replace (Zneg k <=? emax - prec)%Z with true; [done|].
  symmetry. apply Z.leb_le. unfold emax, prec. lia.
Qed.

Lemma to_int_of_int (z : Z) :
  (INT_MIN <= z <= INT_MAX)%Z -> to_int (of_int z) = Some z.
Proof.
  unfold INT_MIN, INT_MAX. intros Hz. destruct z as [|p|p]; [done| |].
  - destruct (binary_round_int false p) as (k & Hk & Hr); [lia|].
    unfold of_int, binary_normalize. rewrite Hr. unfold to_int.
    change (Zneg k) with (- Zpos k)%Z.
    rewrite Z.shiftl_div_pow2, Z.opp_involutive, Zpos_iter_xO, Z.div_mul by lia.
    cbn [cond_Zopp]. unfold INT_MIN, INT_MAX.
    replace ((- 2 ^ 31 <=? Zpos p)%Z && (Zpos p <=? 2 ^ 31 - 1)%Z) with true; [done|].
    symmetry. apply andb_true_intro. split; apply Z.leb_le; lia.
  - destruct (binary_round_int true p) as (k & Hk & Hr); [lia|].
    unfold of_int, binary_normalize. rewrite Hr. unfold to_int.
    change (Zneg k) with (- Zpos k)%Z.
    rewrite Z.shiftl_div_pow2, Z.opp_involutive, Zpos_iter_xO, Z.div_mul by lia.
    cbn [cond_Zopp]. unfold INT_MIN, INT_MAX.
    replace ((- 2 ^ 31 <=? - Zpos p)%Z && (- Zpos p <=? 2 ^ 31 - 1)%Z) with true; [done|].
    symmetry. apply andb_true_intro. split; apply Z.leb_le; lia.
Qed.

Lemma pow2_binary_round_aux_sign (m e : Z) (l : location) :
  pow2 (binary_round_aux prec emax true m e l) = pow2 (binary_round_aux prec emax false m e l).
Proof.
  unfold binary_round_aux.
  destruct (shr_fexp prec emax m e l) as [mrs' e'].
  destruct (shr_fexp prec emax _ e' loc_Exact) as [mrs'' e''].
  destruct (shr_m mrs''); [done | | done].
  by destruct (e'' <=? emax - prec)%Z.
Qed.

Lemma pow2_binary_normalize_opp (z e : Z) :
  pow2 (binary_normalize prec emax (- z) e false) = pow2 (binary_normalize prec emax z e false).
Proof.
  destruct z as [|p|p]; [done | |].
  - change (- Z.pos p)%Z with (Z.neg p). unfold binary_normalize, binary_round.
    destruct (shl_align _ _ _) as [mz ez]. apply pow2_binary_round_aux_sign.
  - change (- Z.neg p)%Z with (Z.pos p). unfold binary_normalize, binary_round.
    destruct (shl_align _ _ _) as [mz ez]. symmetry. apply pow2_binary_round_aux_sign.
Qed.

(** [(x - y)^2] and [(y - x)^2] are the same number. *)
Lemma pow2_sub_comm (x y : double) : pow2 (sub x y) = pow2 (sub y x).
Proof.
  destruct x as [[]|[]| |sx mx ex], y as [[]|[]| |sy my ey]; try reflexivity.
  - by destruct sy.
  - by destruct sy.
  - by destruct sx.
  - by destruct sx.
  - unfold sub, SFsub. rewrite (Z.min_comm ey ex).
    rewrite <- pow2_binary_normalize_opp. f_equal. f_equal. lia.
Qed.

Lemma pow2_not_negative (x : double) : not_negative (pow2 x).
Proof.
  destruct x as [[]|[]| |[] m e]; try done; apply binary_round_aux_not_negative.
Qed.

Lemma binary_normalize_not_negative (z e : Z) :
  (0 <= z)%Z -> not_negative (binary_normalize prec emax z e false).
Proof.
  intros Hz. destruct z as [|p|p]; [done | | lia].
  unfold binary_normalize, binary_round.
  destruct (shl_align _ _ _) as [mz ez]. apply binary_round_aux_not_negative.
Qed.

Lemma add_not_negative (x y : double) :
  not_negative x -> not_negative y -> not_negative (add x y).
Proof.
  destruct x as [sx|sx| |sx mx ex], y as [sy|sy| |sy my ey]; cbn; intros; subst; try done.
  unfold add, SFadd. cbn [cond_Zopp]. apply binary_normalize_not_negative. lia.
Qed.

Lemma sqrt_not_negative (x : double) : not_negative x -> not_negative (sqrt x).
Proof.
  destruct x as [s|s| |s m e]; cbn; intros; subst; try done.
  unfold sqrt, SFsqrt. destruct (SFsqrt_core_binary _ _ _ _) as [[mz ez] lz].
  apply binary_round_aux_not_negative.
Qed.

Lemma sub_finite_self (x : double) : is_finite x = true -> sub x x = zero.
Proof.
  destruct x as [[]|s| |s m e]; try done. intros _.
  unfold sub, SFsub. by rewrite Z.sub_diag.
Qed.

Lemma sub_nan_l (y : double) : sub nan y = nan.
Proof. by destruct y. Qed.
Lemma sub_nan_r (x : double) : sub x nan = nan.
Proof. by destruct x. Qed.
Lemma add_nan_l (y : double) : add nan y = nan.
Proof. by destruct y. Qed.
Lemma add_nan_r (x : double) : add x nan = nan.
Proof. by destruct x. Qed.

(* ===================================================================== *)
(** ** The translation error *)
(* ===================================================================== *)

Lemma GetCalibrationError_sign (A B : vtkMatrix4x4) : not_negative (GetCalibrationError A B).
Proof.
  unfold GetCalibrationError. cbv zeta.
  apply sqrt_not_negative; repeat apply add_not_negative; apply pow2_not_negative.
Qed.

(** The distance does not depend on which of the two matrices is the
    baseline: [GetCalibrationError A B] and [GetCalibrationError B A] are the
    same number, for all matrices, whatever their elements. *)
Theorem GetCalibrationError_symmetric (A B : vtkMatrix4x4) :
  GetCalibrationError A B = GetCalibrationError B A.
Proof.
  unfold GetCalibrationError, GetPosition, SetMatrix, at_index. cbn [Matrix nth].
  by rewrite (pow2_sub_comm (GetElement A 0 3)), (pow2_sub_comm (GetElement A 1 3)),
    (pow2_sub_comm (GetElement A 2 3)).
Qed.

(** The distance is [+0], a positive number, [+inf] or NaN: never a
    negative number and never [-0]; in particular it is never below zero. *)
Theorem GetCalibrationError_not_negative (A B : vtkMatrix4x4) :
  not_negative (GetCalibrationError A B)
  /\ ltb (GetCalibrationError A B) zero = false.
Proof.
  pose proof (GetCalibrationError_sign A B) as H.
  split; [done|]. by destruct (GetCalibrationError A B) as [s|s| |s m e]; cbn in H; subst.
Qed.

(** Two matrices with the same finite translation are at distance exactly
    [+0], whatever their other twelve elements (their rotations) are. *)
Theorem GetCalibrationError_same_translation (A B : vtkMatrix4x4) :
  (forall row, (row < 3)%nat ->
     GetElement A row 3 = GetElement B row 3 /\ is_finite (GetElement A row 3) = true) ->
  GetCalibrationError A B = zero.
Proof.
  intros H. unfold GetCalibrationError, GetPosition, SetMatrix, at_index. cbn [Matrix nth].
  destruct (H 0%nat ltac:(lia)) as [<- H0], (H 1%nat ltac:(lia)) as [<- H1],
           (H 2%nat ltac:(lia)) as [<- H2].
  by rewrite !sub_finite_self.
Qed.

(** A NaN among the six translation components makes the distance NaN, and
    a NaN translation error passes the translation check under every
    threshold. *)
Theorem GetCalibrationError_nan (A B : vtkMatrix4x4) (row : nat) (t : Z) :
  (row < 3)%nat ->
  GetElement A row 3 = nan \/ GetElement B row 3 = nan ->
  GetCalibrationError A B = nan
  /\ translation_log (GetCalibrationError A B) t = [].
Proof.
  intros Hrow Hnan.
  assert (H : GetCalibrationError A B = nan).
  { unfold GetCalibrationError, GetPosition, SetMatrix, at_index. cbn [Matrix nth].
    destruct row as [|[|[|row]]]; [| | |lia];
      (destruct Hnan as [-> | ->]; [rewrite sub_nan_l | rewrite sub_nan_r]);
      change (pow2 nan) with nan; by rewrite ?add_nan_l, ?add_nan_r. }
  split; [done|]. rewrite H. unfold translation_log. by destruct (of_int t).
Qed.

(** The loops of lines 240-249 overwrite all sixteen elements: element
    [(i, j)] of the matrix read back is element [4*i + j] of the array, and
    nothing of the identity matrix it started as is left. *)
Theorem matrix_of_reads_back (a : list double) (i j : nat) :
  (i < 4)%nat -> (j < 4)%nat -> GetElement (matrix_of a) i j = at_index a (4 * i + j).
Proof.
  intros Hi Hj.
  destruct i as [|[|[|[|i]]]]; [| | | |lia];
    (destruct j as [|[|[|[|j]]]]; [| | | |lia]); reflexivity.
Qed.

(* ===================================================================== *)
(** ** The ratio test on special values *)
(* ===================================================================== *)

(** A NaN on either side is never reported: the ratio is NaN and both
    comparisons of the test are false. *)
Theorem nan_is_never_a_mismatch (e : log_entry) (b c : double) :
  b = nan \/ c = nan -> logs (ratio_check e b c) [].
Proof.
  intros H s. rewrite logs_ratio_check. unfold ratio_log, out_of_tolerance.
  assert (Hratio : div (mul one b) c = nan).
  { destruct H as [-> | ->]; [by destruct c | by destruct (mul one b)]. }
  by rewrite Hratio.
Qed.

(** Finite non-zero values of opposite signs are always reported, however
    small they are: their ratio is negative. *)
Theorem sign_change_is_a_mismatch
    (e : log_entry) (sb : bool) (mb : positive) (eb : Z) (sc : bool) (mc : positive) (ec : Z) :
  valid (S754_finite sb mb eb) = true ->
  sb <> sc ->
  logs (ratio_check e (S754_finite sb mb eb) (S754_finite sc mc ec)) [e].
Proof.
  intros Hv Hs s. rewrite logs_ratio_check. unfold ratio_log, out_of_tolerance.
  rewrite mul_one_l by done.
  rewrite negative_out_of_tolerance; [done|].
  replace true with (xorb sb sc) by (by destruct sb, sc). apply div_finite_has_sign.
Qed.

(** A baseline value of zero is matched by a current value of zero (or NaN)
    only, and an infinite baseline value by an infinite current value (or
    NaN) only, of either sign: every other current value is reported. *)
Theorem special_baseline_values (e : log_entry) (s : bool) (c : double) :
  logs (ratio_check e (S754_zero s) c)
       (match c with
        | S754_finite _ _ _ | S754_infinity _ => [e]
        | S754_zero _ | S754_nan => []
        end)
  /\ logs (ratio_check e (S754_infinity s) c)
          (match c with
           | S754_finite _ _ _ | S754_zero _ => [e]
           | S754_infinity _ | S754_nan => []
           end).
Proof.
  split; intros st; rewrite logs_ratio_check; unfold ratio_log, out_of_tolerance;
    destruct tolerance_bounds as [-> ->]; by destruct s, c as [[]|[]| |[] m ex].
Qed.

(* ===================================================================== *)
(** ** Early exits, the counter and [main] *)
(* ===================================================================== *)

Ltac found := rewrite bind_non_null_some; cbv beta.

Lemma of_int_negative (t : Z) :
  (INT_MIN <= t < 0)%Z -> exists m e, of_int t = S754_finite true m e.
Proof.
  unfold INT_MIN. intros Ht. destruct t as [|p|p]; try lia.
  destruct (binary_round_int true p) as (k & _ & Hr); [lia|].
  unfold of_int, binary_normalize. rewrite Hr. eauto.
Qed.

Lemma no_exit_line_ratio_log (e : log_entry) (b c : double) :
  is_exit_line e = false -> no_exit_line (ratio_log e b c).
Proof.
  intros He. unfold ratio_log, no_exit_line.
  destruct (out_of_tolerance b c); by repeat constructor.
Qed.

Lemma no_exit_line_vector_log (metric : string) (n : nat) (bl c : option (list double)) :
  no_exit_line (vector_log metric n bl c).
Proof.
  destruct bl as [bl|], c as [c|]; cbn [vector_log]; try by repeat constructor.
  generalize (seq 0 n). intros l. induction l as [|i l IH]; cbn [flat_map]; [constructor|].
  apply Forall_app. split; [by apply no_exit_line_ratio_log | apply IH].
Qed.

Lemma no_exit_line_confidence_log (metric : string) (bl c : option double) :
  no_exit_line (confidence_log metric bl c).
Proof.
  destruct bl as [bl|], c as [c|]; cbn [confidence_log]; try by repeat constructor.
  by apply no_exit_line_ratio_log.
Qed.

Lemma orderly_logs (m : M unit) (l : list log_entry) :
  logs m l -> no_exit_line l -> orderly m.
Proof. intros Hm Hl s. exists l. unfold orderly. rewrite !Hm. by cbn. Qed.

Lemma orderly_non_null {A : Type} (p : option A) (e : log_entry) :
  is_exit_line e = true -> orderly (non_null p e).
Proof.
  intros He s. destruct p as [a|].
  - exists []. rewrite record_nil. cbn. split; [done | constructor].
  - exists [e]. cbn. split; [done|]. right. exists [], e. repeat split; [constructor | done].
Qed.

Lemma orderly_return {A : Type} : orderly (@return_numberOfFailures A).
Proof. intros s. exists []. rewrite record_nil. cbn. split; [done|]. left. constructor. Qed.

Lemma orderly_bind {A B : Type} (m : M A) (f : A -> M B) :
  orderly m -> (forall a, orderly (f a)) -> orderly (m ≫= f).
Proof.
  intros Hm Hf s. unfold mbind, M_bind.
  destruct (Hm s) as (l1 & Hs1 & H1). destruct (m s) as [[a|v] s1]; cbn in Hs1, H1.
  - destruct (Hf a s1) as (l2 & Hs2 & H2). exists (l1 ++ l2).
    rewrite <- record_app, <- Hs1. split; [done|].
    destruct (f a s1) as [[b|v] s2]; cbn in H2 |- *.
    + by apply Forall_app.
    + destruct H2 as [H2 | (l' & e & -> & Hl' & He)].
      * left. by apply Forall_app.
      * right. exists (l1 ++ l'), e. rewrite app_assoc. repeat split; [|done].
        by apply Forall_app.
  - exists l1. by cbn.
Qed.

Lemma orderly_analysis_block (section metric : string) (n : nat) (erb erc : vtkXMLDataElement) :
  orderly (analysis_block section metric n erb erc).
Proof.
  unfold analysis_block.
  apply orderly_bind; [by apply orderly_non_null | intros ab].
  apply orderly_bind; [by apply orderly_non_null | intros ac].
  eapply orderly_logs.
  - apply logs_seq; [apply logs_vector_block | apply logs_confidence_block].
  - apply Forall_app. split; [apply no_exit_line_vector_log | apply no_exit_line_confidence_log].
Qed.

Section FurtherProperties.

Variable GetOrientationDifference : vtkMatrix4x4 -> vtkMatrix4x4 -> double.

Local Abbreviation Compare := (CompareCalibrationResultsWithBaseline GetOrientationDifference).
Local Abbreviation Log := (CompareLog GetOrientationDifference).

Lemma no_exit_line_transform_log (bl c : option (list double)) (t r : Z) :
  no_exit_line (transform_log GetOrientationDifference bl c t r).
Proof.
  destruct bl as [bl|], c as [c|]; cbn [transform_log]; try by repeat constructor.
  destruct (fill_matrices bl c) as [mb mc]. unfold translation_log, rotation_log.
  apply Forall_app. split; destruct (gtb _ _); by repeat constructor.
Qed.

(** On every input the value returned is the number of lines logged, and it
    lies between 0 and 16, so that the [int] counter cannot wrap around; 16
    is reached, by a current document whose twelve vector components and two
    confidence levels are zero, under thresholds of -1. *)
Theorem count_is_log_length_at_most_16 (b c : option vtkXMLDataElement) (t r : Z) :
  Compare b c t r = Z.of_nat (length (Log b c t r))
  /\ (0 <= Compare b c t r <= 16)%Z
  /\ CompareCalibrationResultsWithBaseline no_rotation
       (Some scenario_baseline) (Some (make_document all_zero_fields)) (-1) (-1) = 16%Z.
Proof.
  destruct (returned_count_is_log_length GetOrientationDifference b c t r) as [H1 H2].
  split; [exact H1|]. split; [exact H2|]. vm_compute. reflexivity.
Qed.

(** Before any value is compared, the first file or section found missing
    ends the comparison with that one line: the baseline file, then the
    current file, then CalibrationResults and CalibrationTransform, in the
    baseline before the current document.  The value returned is then 1,
    whatever else is missing or differs. *)
Theorem early_exit_before_checks
    (rb rc : vtkXMLDataElement) (c : option vtkXMLDataElement) (t r : Z) :
  Log None c t r = [ReadingFileFailed Baseline]
  /\ Log (Some rb) None t r = [ReadingFileFailed Current]
  /\ (FindNestedElementWithName rb "CalibrationResults" = None ->
      Log (Some rb) (Some rc) t r = [ReadingTagFailed Baseline "CalibrationResults"])
  /\ (forall crb,
        FindNestedElementWithName rb "CalibrationResults" = Some crb ->
        FindNestedElementWithName rc "CalibrationResults" = None ->
        Log (Some rb) (Some rc) t r = [ReadingTagFailed Current "CalibrationResults"])
  /\ (forall crb crc,
        FindNestedElementWithName rb "CalibrationResults" = Some crb ->
        FindNestedElementWithName rc "CalibrationResults" = Some crc ->
        FindNestedElementWithName crb "CalibrationTransform" = None ->
        Log (Some rb) (Some rc) t r = [ReadingTagFailed Baseline "CalibrationTransform"])
  /\ (forall crb crc ctb,
        FindNestedElementWithName rb "CalibrationResults" = Some crb ->
        FindNestedElementWithName rc "CalibrationResults" = Some crc ->
        FindNestedElementWithName crb "CalibrationTransform" = Some ctb ->
        FindNestedElementWithName crc "CalibrationTransform" = None ->
        Log (Some rb) (Some rc) t r = [ReadingTagFailed Current "CalibrationTransform"])
  /\ (forall b' c' e, Log b' c' t r = [e] -> Compare b' c' t r = 1%Z).
Proof.
  unfold CompareLog, run, CompareCalibrationResultsWithBaseline_body.
  repeat split.
  - intros H. do 2 found. by rewrite H, bind_non_null_none.
  - intros crb Hb H. do 2 found. rewrite Hb, H. found. by rewrite bind_non_null_none.
  - intros crb crc Hb Hc H. do 2 found. rewrite Hb, Hc. do 2 found.
    by rewrite H, bind_non_null_none.
  - intros crb crc ctb Hb Hc Htb H. do 2 found. rewrite Hb, Hc. do 2 found.
    rewrite Htb, H. found. by rewrite bind_non_null_none.
  - intros b' c' e H.
    rewrite (proj1 (returned_count_is_log_length GetOrientationDifference b' c' t r)).
    unfold CompareLog, run, CompareCalibrationResultsWithBaseline_body. by rewrite H.
Qed.

(** When the ErrorReports section is missing from either document, the
    transform check has been made: the log is its lines followed by the one
    line for the missing section (the baseline's, if it is missing from
    both), and no error analysis is looked at. *)
Theorem missing_ErrorReports_returns
    (rb rc crb crc ctb ctc : vtkXMLDataElement) (t r : Z) :
  FindNestedElementWithName rb "CalibrationResults" = Some crb ->
  FindNestedElementWithName rc "CalibrationResults" = Some crc ->
  FindNestedElementWithName crb "CalibrationTransform" = Some ctb ->
  FindNestedElementWithName crc "CalibrationTransform" = Some ctc ->
  FindNestedElementWithName rb "ErrorReports" = None
  \/ FindNestedElementWithName rc "ErrorReports" = None ->
  Log (Some rb) (Some rc) t r
  = transform_log GetOrientationDifference
      (GetVectorAttribute ctb "TransformImageToProbe" 16)
      (GetVectorAttribute ctc "TransformImageToProbe" 16) t r
    ++ [ReadingTagFailed
          match FindNestedElementWithName rb "ErrorReports" with
          | Some _ => Current
          | None => Baseline
          end "ErrorReports"].
Proof.
  intros Hcrb Hcrc Hctb Hctc Hmissing.
  unfold CompareLog, run, CompareCalibrationResultsWithBaseline_body.
  do 2 found. rewrite Hcrb, Hcrc. do 2 found. rewrite Hctb, Hctc. do 2 found.
  rewrite (bind_logs _ _ _ _ (logs_transform_block _ ctb ctc t r)).
  destruct (FindNestedElementWithName rb "ErrorReports") as [erb|].
  - destruct Hmissing as [H|H]; [done|]. rewrite H. found. by rewrite bind_non_null_none.
  - by rewrite bind_non_null_none.
Qed.

(** When the PointLineDistanceErrorAnalysis section is missing from either
    document and everything before it is there, the transform check and both
    checks of PointReconstructionErrorAnalysis have been made: the log is
    their lines followed by the one line for the missing section. *)
Theorem missing_PLDE_section_returns
    (rb rc crb crc ctb ctc erb erc prb prc : vtkXMLDataElement) (t r : Z) :
  FindNestedElementWithName rb "CalibrationResults" = Some crb ->
  FindNestedElementWithName rc "CalibrationResults" = Some crc ->
  FindNestedElementWithName crb "CalibrationTransform" = Some ctb ->
  FindNestedElementWithName crc "CalibrationTransform" = Some ctc ->
  FindNestedElementWithName rb "ErrorReports" = Some erb ->
  FindNestedElementWithName rc "ErrorReports" = Some erc ->
  FindNestedElementWithName erb "PointReconstructionErrorAnalysis" = Some prb ->
  FindNestedElementWithName erc "PointReconstructionErrorAnalysis" = Some prc ->
  FindNestedElementWithName erb "PointLineDistanceErrorAnalysis" = None
  \/ FindNestedElementWithName erc "PointLineDistanceErrorAnalysis" = None ->
  Log (Some rb) (Some rc) t r
  = transform_log GetOrientationDifference
      (GetVectorAttribute ctb "TransformImageToProbe" 16)
      (GetVectorAttribute ctc "TransformImageToProbe" 16) t r
    ++ vector_log "PRE" 9 (GetVectorAttribute prb "PRE" 9) (GetVectorAttribute prc "PRE" 9)
    ++ confidence_log "PRE" (GetScalarAttribute prb "ValidationDataConfidenceLevel")
                            (GetScalarAttribute prc "ValidationDataConfidenceLevel")
    ++ [ReadingTagFailed
          match FindNestedElementWithName erb "PointLineDistanceErrorAnalysis" with
          | Some _ => Current
          | None => Baseline
          end "PointLineDistanceErrorAnalysis"].
Proof.
  intros Hcrb Hcrc Hctb Hctc Herb Herc Hprb Hprc Hmissing.
  unfold CompareLog.
  rewrite (run_reaches_error_reports _ _ _ _ _ _ _ _ _ t r Hcrb Hcrc Hctb Hctc Herb Herc).
  rewrite (bind_logs _ _ _ _ (logs_analysis_block _ "PRE" 9 _ _ _ _ Hprb Hprc)).
  rewrite record_app. unfold mbind at 1, M_bind.
  edestruct analysis_block_returns as (which & -> & ->); [exact Hmissing|].
  cbn [snd record messages app]. by rewrite <- !app_assoc.
Qed.

(** For two documents with all their sections, the value returned is the
    sum of what the five checks count: at most 2 for the transform, 9 for
    PRE, 3 for PLDE and 1 for each confidence level.  The thresholds bear on
    the transform check only. *)
Theorem complete_documents_count
    (rb rc : vtkXMLDataElement) (fb fc : document_fields) (t r : Z) :
  fields_of rb = Some fb -> fields_of rc = Some fc ->
  let transform := transform_log GetOrientationDifference
                     (TransformImageToProbe fb) (TransformImageToProbe fc) t r in
  let pre := vector_log "PRE" 9 (PRE fb) (PRE fc) in
  let pre_confidence := confidence_log "PRE" (PRE_confidence fb) (PRE_confidence fc) in
  let plde := vector_log "PLDE" 3 (PLDE fb) (PLDE fc) in
  let plde_confidence := confidence_log "PLDE" (PLDE_confidence fb) (PLDE_confidence fc) in
  Log (Some rb) (Some rc) t r = transform ++ pre ++ pre_confidence ++ plde ++ plde_confidence
  /\ Compare (Some rb) (Some rc) t r
     = Z.of_nat (length transform + length pre + length pre_confidence
                 + length plde + length plde_confidence)
  /\ (length transform <= 2 /\ length pre <= 9 /\ length pre_confidence <= 1
      /\ length plde <= 3 /\ length plde_confidence <= 1)%nat.
Proof.
  intros Hb Hc. cbv zeta.
  destruct (compare_all_sections GetOrientationDifference rb rc fb fc t r Hb Hc) as [-> ->].
  unfold fields_log. split; [done|]. split.
  - rewrite !length_app. f_equal. lia.
  - pose proof (length_transform_log GetOrientationDifference
                  (TransformImageToProbe fb) (TransformImageToProbe fc) t r).
    pose proof (length_vector_log "PRE" 9 (PRE fb) (PRE fc)).
    pose proof (length_vector_log "PLDE" 3 (PLDE fb) (PLDE fc)).
    pose proof (length_confidence_log "PRE" (PRE_confidence fb) (PRE_confidence fc)).
    pose proof (length_confidence_log "PLDE" (PLDE_confidence fb) (PLDE_confidence fc)).
    lia.
Qed.

(** On every input the log holds at most one line about an unreadable file
    or a missing section, and that line is the last one: nothing is checked
    after it. *)
Theorem exit_line_is_last (b c : option vtkXMLDataElement) (t r : Z) :
  exists l,
    no_exit_line l
    /\ (Log b c t r = l \/ exists e, is_exit_line e = true /\ Log b c t r = l ++ [e]).
Proof.
  assert (H : orderly (CompareCalibrationResultsWithBaseline_body
                         GetOrientationDifference b c t r)).
  { unfold CompareCalibrationResultsWithBaseline_body.
    do 6 (apply orderly_bind; [by apply orderly_non_null | intros ?]).
    apply orderly_bind;
      [exact (orderly_logs _ _ (logs_transform_block _ _ _ _ _)
                (no_exit_line_transform_log _ _ _ _)) | intros _].
    do 2 (apply orderly_bind; [by apply orderly_non_null | intros ?]).
    do 2 (apply orderly_bind; [apply orderly_analysis_block | intros _]).
    apply orderly_return. }
  unfold CompareLog, run. destruct (H (State 0 [])) as (l & Hs & Hl).
  destruct (CompareCalibrationResultsWithBaseline_body _ b c t r (State 0 []))
    as [[[]|v] s]; cbn in Hs, Hl. subst s. cbn.
  destruct Hl as [Hl | (l' & e & -> & Hl' & He)].
  - exists l. split; [done|]. by left.
  - exists l'. split; [done|]. right. by exists e.
Qed.

(** Under a negative translation threshold every translation error that is
    a number is reported, zero included: identical transforms fail the
    check.  (The translation error is the Euclidean distance, as
    [GetCalibrationError] computes it.) *)
Theorem negative_translation_threshold
    (eb ec : vtkXMLDataElement) (bl cl : list double) (t r : Z) :
  GetVectorAttribute eb "TransformImageToProbe" 16 = Some bl ->
  GetVectorAttribute ec "TransformImageToProbe" 16 = Some cl ->
  (INT_MIN <= t < 0)%Z ->
  GetCalibrationError (matrix_of bl) (matrix_of cl) <> nan ->
  logs (TransformImageToProbe_block GetOrientationDifference eb ec t r)
       (TranslationErrorTooHigh (GetCalibrationError (matrix_of bl) (matrix_of cl)) t
        :: rotation_log (GetOrientationDifference (matrix_of bl) (matrix_of cl)) r).
Proof.
  intros Hbl Hcl Ht Hnan s.
  rewrite logs_transform_block, Hbl, Hcl. unfold transform_log.
  rewrite fill_matrices_matrix_of, GetPositionDifference_GetCalibrationError.
  unfold translation_log.
  destruct (of_int_negative t Ht) as (m & e & ->).
  pose proof (GetCalibrationError_sign (matrix_of bl) (matrix_of cl)) as Hpos.
  by destruct (GetCalibrationError (matrix_of bl) (matrix_of cl)) as [sx|sx| |sx mx ex];
    cbn in Hpos; subst.
Qed.

(** An [int] converted to [double] and back is the same [int], so
    thresholds given to [main] as whole numbers within the range of [int]
    reach the comparison unchanged. *)
Theorem integral_thresholds_unchanged (b c : option vtkXMLDataElement) (t r : Z) :
  (INT_MIN <= t <= INT_MAX)%Z -> (INT_MIN <= r <= INT_MAX)%Z ->
  to_int (of_int t) = Some t
  /\ main_compare GetOrientationDifference b c (of_int t) (of_int r) = Some (Compare b c t r).
Proof.
  intros Ht Hr. split; [by apply to_int_of_int|].
  unfold main_compare. by rewrite !to_int_of_int.
Qed.

(** [main] exits with [EXIT_SUCCESS] exactly when every call it tests has
    succeeded, both thresholds convert to [int], and the comparison, run
    with the converted thresholds, logs nothing. *)
Theorem main_succeeds_iff (calls : main_calls) :
  main GetOrientationDifference calls = Some EXIT_SUCCESS
  <-> all_calls_succeed calls = true
      /\ exists t r : Z,
           to_int (inputTranslationErrorThreshold calls) = Some t
           /\ to_int (inputRotationErrorThreshold calls) = Some r
           /\ Log (baselineFile calls) (currentResultFile calls) t r = [].
Proof.
  unfold main, all_calls_succeed, main_compare.
  destruct (cmdargs_Parse calls); cbn [negb andb]; [|split; [done | by intros [? _]]].
  destruct (configRootElement calls) as [config|]; cbn [negb andb];
    [|split; [done | by intros [? _]]].
  rewrite bool_decide_true by eauto. cbn [andb].
  destruct (transformRepository_ReadConfiguration calls); cbn [succeeded negb andb];
    [split; [done | by intros [? _]]|].
  destruct (calibration_ReadFromSequenceMetafile calls); cbn [succeeded negb andb];
    [split; [done | by intros [? _]]|].
  destruct (calibration_RecognizePattern calls); cbn [succeeded negb andb];
    [split; [done | by intros [? _]]|].
  destruct (validation_ReadFromSequenceMetafile calls); cbn [succeeded negb andb];
    [split; [done | by intros [? _]]|].
  destruct (validation_RecognizePattern calls); cbn [succeeded negb andb];
    [split; [done | by intros [? _]]|].
  destruct (freehandCalibration_Calibrate calls); cbn [succeeded negb andb];
    [split; [done | by intros [? _]]|].
  destruct (to_int (inputTranslationErrorThreshold calls)) as [t|]; cbn;
    [|split; [done | by intros [_ (? & ? & ? & _)]]].
  destruct (to_int (inputRotationErrorThreshold calls)) as [r|]; cbn;
    [|split; [done | by intros [_ (? & ? & _ & ? & _)]]].
  rewrite (proj1 (returned_count_is_log_length GetOrientationDifference _ _ t r)).
  destruct (CompareLog _ _ _ t r) as [|e l] eqn:Hlog.
  - split; [|done]. intros _. split; [done|]. by exists t, r.
  - cbn. split; [done|]. intros [_ (t' & r' & [= <-] & [= <-] & H)]. congruence.
Qed.

End FurtherProperties.

(* ===================================================================== *)
(** ** The further properties on sample documents *)
(* ===================================================================== *)

Lemma early_exit_before_checks_witness :
  CompareLog no_rotation (Some scenario_baseline) (Some empty_root) 0 0
  = [ReadingTagFailed Current "CalibrationResults"]
  /\ CompareCalibrationResultsWithBaseline no_rotation
       (Some scenario_baseline) (Some empty_root) 0 0 = 1%Z.
Proof.
  destruct (early_exit_before_checks no_rotation scenario_baseline empty_root None 0 0)
    as (_ & _ & _ & Hcurrent & _ & _ & Hcount).
  pose proof (Hcurrent _ eq_refl eq_refl) as Hlog.
  split; [exact Hlog | exact (Hcount _ _ _ Hlog)].
Defined.

Lemma missing_ErrorReports_returns_witness :
  CompareLog no_rotation (Some scenario_baseline) (Some calibration_results_only) 0 0
  = [ReadingTagFailed Current "ErrorReports"].
Proof.
  exact (missing_ErrorReports_returns no_rotation scenario_baseline calibration_results_only
           _ _ _ _ 0 0 eq_refl eq_refl eq_refl eq_refl (or_intror eq_refl)).
Defined.

Lemma missing_PLDE_section_returns_witness :
  length (CompareLog no_rotation (Some scenario_baseline) (Some without_PLDE_section) 0 0)
  = 10%nat
  /\ last (CompareLog no_rotation (Some scenario_baseline) (Some without_PLDE_section) 0 0)
     = Some (ReadingTagFailed Current "PointLineDistanceErrorAnalysis").
Proof.
  rewrite (missing_PLDE_section_returns no_rotation scenario_baseline without_PLDE_section
             _ _ _ _ _ _ _ _ 0 0 eq_refl eq_refl eq_refl eq_refl eq_refl eq_refl
             eq_refl eq_refl (or_intror eq_refl)).
  split; reflexivity.
Defined.

Lemma complete_documents_count_witness :
  CompareCalibrationResultsWithBaseline no_rotation
    (Some scenario_baseline) (Some (make_document all_zero_fields)) 0 0 = 14%Z.
Proof.
  destruct (complete_documents_count no_rotation scenario_baseline
              (make_document all_zero_fields) scenario_fields all_zero_fields 0 0
              eq_refl eq_refl) as (_ & Hcount & _).
  rewrite Hcount. reflexivity.
Defined.

(** The translation (3, 4, 0) under two different rotation blocks. *)
Lemma GetCalibrationError_same_translation_witness :
  GetCalibrationError (matrix_of (translation_by (of_int 3) (of_int 4) zero))
                      (matrix_of (<[0%nat := of_int 5]>
                                    (translation_by (of_int 3) (of_int 4) zero)))
  = zero.
Proof.
  apply GetCalibrationError_same_translation.
  intros [|[|[|row]]] Hrow; [split; reflexivity | split; reflexivity | split; reflexivity | lia].
Defined.

Lemma GetCalibrationError_nan_witness :
  GetCalibrationError (matrix_of (translation_by nan zero zero)) New = nan
  /\ translation_log
       (GetCalibrationError (matrix_of (translation_by nan zero zero)) New) 0 = [].
Proof.
  apply (GetCalibrationError_nan _ _ 0%nat 0); [lia | left; reflexivity].
Defined.

Lemma matrix_of_reads_back_witness :
  GetElement (matrix_of (translation_by (of_int 3) (of_int 4) zero)) 1 3 = of_int 4.
Proof.
  rewrite (matrix_of_reads_back _ 1 3) by lia. reflexivity.
Defined.

Lemma nan_is_never_a_mismatch_witness :
  logs (ratio_check (ConfidenceLevelMismatch "PRE" one nan) nan one) [].
Proof. apply nan_is_never_a_mismatch. left. reflexivity. Defined.

(** 1 against -1. *)
Lemma sign_change_is_a_mismatch_witness :
  logs (ratio_check (ConfidenceLevelMismatch "PRE" (of_int (-1)) one) one (of_int (-1)))
       [ConfidenceLevelMismatch "PRE" (of_int (-1)) one].
Proof.
  apply (sign_change_is_a_mismatch _ false 4503599627370496 (-52) true 4503599627370496 (-52));
    [reflexivity | discriminate].
Defined.

(** Identical transforms under the translation threshold -1. *)
Lemma negative_translation_threshold_witness :
  logs (TransformImageToProbe_block no_rotation
          (transform_element (translation_by zero zero zero))
          (transform_element (translation_by zero zero zero)) (-1) 0)
       [TranslationErrorTooHigh zero (-1)].
Proof.
  apply (negative_translation_threshold no_rotation
           (transform_element (translation_by zero zero zero))
           (transform_element (translation_by zero zero zero))
           (translation_by zero zero zero) (translation_by zero zero zero) (-1) 0
           eq_refl eq_refl).
  - unfold INT_MIN. lia.
  - discriminate.
Defined.

Lemma integral_thresholds_unchanged_witness :
  to_int (of_int 5) = Some 5%Z
  /\ main_compare no_rotation (Some scenario_baseline) (Some scenario_baseline)
       (of_int 5) (of_int (-3))
     = Some (CompareCalibrationResultsWithBaseline no_rotation
               (Some scenario_baseline) (Some scenario_baseline) 5 (-3)).
Proof.
  apply integral_thresholds_unchanged; unfold INT_MIN, INT_MAX; lia.
Defined.

Lemma main_succeeds_iff_witness :
  main no_rotation (successful_calls scenario_baseline scenario_baseline) = Some EXIT_SUCCESS.
Proof.
  apply main_succeeds_iff. split; [reflexivity|].
  exists 0%Z, 0%Z. repeat split; reflexivity.
Defined.

(* ===================================================================== *)
(** ** Exact arithmetic on a binary grid *)
(* ===================================================================== *)


Lemma digits2_pos_le (p : positive) (n : Z) :
  (Zpos p < 2 ^ n)%Z -> (Zpos (digits2_pos p) <= n)%Z.
Proof.
  intros Hp. pose proof (digits2_pos_lower p) as Hl.
  destruct (Z.le_gt_cases (Zpos (digits2_pos p)) n) as [H|H]; [done|].
  assert (0 <= n)%Z.
  { destruct (Z.le_gt_cases 0 n); [done|]. rewrite Z.pow_neg_r in Hp by lia. lia. }
  assert (2 ^ n <= 2 ^ (Zpos (digits2_pos p) - 1))%Z by (apply Z.pow_le_mono_r; lia).
  lia.
Qed.


Lemma Zpos_shiftl (p : positive) (n : N) :
  Zpos (Pos.shiftl p n) = (Zpos p * 2 ^ Z.of_N n)%Z.
Proof.
  destruct n as [|k]; unfold Pos.shiftl, Z.of_N; [rewrite Z.pow_0_r; lia | apply Zpos_iter_xO].
Qed.

Lemma digits2_pos_shiftl (p : positive) (n : N) :
  Zpos (digits2_pos (Pos.shiftl p n)) = (Zpos (digits2_pos p) + Z.of_N n)%Z.
Proof.
  destruct n as [|k]; unfold Pos.shiftl, Z.of_N; [lia|]. rewrite digits2_pos_iter_xO. lia.
Qed.

Lemma iter_pos_iter {A : Type} (f : A -> A) (n : positive) (x : A) :
  SpecFloat.iter_pos f n x = Pos.iter f x n.
Proof.
  revert x. induction n as [n IH|n IH|]; intros x; cbn.
  - by rewrite !IH, Pos.iter_swap, Pos.iter_swap.
  - by rewrite !IH.
  - done.
Qed.

Lemma shr_1_xO (p : positive) :
  shr_1 {| shr_m := Zpos p~0; shr_r := false; shr_s := false |}
  = {| shr_m := Zpos p; shr_r := false; shr_s := false |}.
Proof. reflexivity. Qed.

Lemma iter_shr_1_shiftl (n p : positive) :
  Pos.iter shr_1 {| shr_m := Zpos (Pos.iter xO p n); shr_r := false; shr_s := false |} n
  = {| shr_m := Zpos p; shr_r := false; shr_s := false |}.
Proof.
  revert p. induction n as [|n IH] using Pos.peano_ind; intros p.
  - reflexivity.
  - rewrite (Pos.iter_succ n _ shr_1), (Pos.iter_succ n _ xO), <- (Pos.iter_swap n _ xO).
    by rewrite IH.
Qed.

(** Shifting right by as many bits as were shifted in loses nothing. *)
Lemma shr_shiftl (p : positive) (n : N) (e : Z) :
  shr {| shr_m := Zpos (Pos.shiftl p n); shr_r := false; shr_s := false |} e (Z.of_N n)
  = ({| shr_m := Zpos p; shr_r := false; shr_s := false |}, (e + Z.of_N n)%Z).
Proof.
  destruct n as [|k]; unfold Pos.shiftl, Z.of_N, shr; [by rewrite Z.add_0_r|].
  by rewrite iter_pos_iter, iter_shr_1_shiftl.
Qed.

Lemma fexp_small (d : Z) : (-1021 <= d)%Z -> fexp prec emax d = (d - 53)%Z.
Proof. unfold fexp, emin, prec, emax. lia. Qed.

Lemma dyadic_signed (s : bool) (p : positive) (e : Z) :
  dyadic (cond_Zopp s (Zpos p)) e
  = S754_finite s (Pos.shiftl p (Z.to_N (53 - Zpos (digits2_pos p))))
                (Zpos (digits2_pos p) - 53 + e).
Proof. by destruct s. Qed.

(** A mantissa [p * 2^j] of at least 53 bits with exponent [e - j] rounds,
    exactly, to [p * 2^e]. *)
Lemma binary_round_aux_exact (s : bool) (p q : positive) (j e : Z) :
  (Zpos (digits2_pos p) <= 53)%Z ->
  (53 - Zpos (digits2_pos p) <= j)%Z ->
  (-1021 <= Zpos (digits2_pos p) + e <= 1024)%Z ->
  Zpos q = (Zpos p * 2 ^ j)%Z ->
  binary_round_aux prec emax s (Zpos q) (e - j) loc_Exact
  = dyadic (cond_Zopp s (Zpos p)) e.
Proof.
  intros Hd Hj He Hq. rewrite dyadic_signed.
  set (d := Zpos (digits2_pos p)) in *.
  set (p' := Pos.shiftl p (Z.to_N (53 - d))).
  assert (Hq' : q = Pos.shiftl p' (Z.to_N (j - (53 - d)))).
  { apply Pos2Z.inj. rewrite Hq. unfold p'. rewrite !Zpos_shiftl, !Z2N.id by lia.
    rewrite <- Z.mul_assoc, <- Z.pow_add_r by lia. do 2 f_equal. lia. }
  assert (Hdp' : Zpos (digits2_pos p') = 53%Z).
  { unfold p'. rewrite digits2_pos_shiftl, Z2N.id by lia. fold d. lia. }
  unfold binary_round_aux, shr_fexp, Zdigits2.
  replace (fexp prec emax (Zpos (digits2_pos q) + (e - j)) - (e - j))%Z
    with (Z.of_N (Z.to_N (j - (53 - d)))).
  2:{ rewrite Hq', digits2_pos_shiftl, Hdp', !Z2N.id, fexp_small by lia. lia. }
  cbn [shr_record_of_loc]. rewrite Hq' at 1. rewrite shr_shiftl.
  cbn [shr_m loc_of_shr_record round_nearest_even].
  rewrite Hdp', fexp_small by (rewrite Z2N.id by lia; lia).
  replace (53 + (e - j + Z.of_N (Z.to_N (j - (53 - d)))) - 53
           - (e - j + Z.of_N (Z.to_N (j - (53 - d)))))%Z with 0%Z by lia.
  cbn [shr shr_m].
  replace (e - j + Z.of_N (Z.to_N (j - (53 - d))) <=? emax - prec)%Z with true.
  2:{ symmetry. apply Z.leb_le. rewrite Z2N.id by lia. unfold emax, prec. lia. }
  f_equal. rewrite Z2N.id by lia. lia.
Qed.

(** [binary_round] brings a shorter mantissa up to 53 bits first. *)
Lemma binary_round_exact (s : bool) (p q : positive) (j e : Z) :
  (Zpos (digits2_pos p) <= 53)%Z ->
  (0 <= j)%Z ->
  (-1021 <= Zpos (digits2_pos p) + e <= 1024)%Z ->
  Zpos q = (Zpos p * 2 ^ j)%Z ->
  binary_round prec emax s q (e - j) = dyadic (cond_Zopp s (Zpos p)) e.
Proof.
  intros Hd Hj He Hq.
  assert (Hdq : Zpos (digits2_pos q) = (Zpos (digits2_pos p) + j)%Z).
  { replace q with (Pos.shiftl p (Z.to_N j)); [rewrite digits2_pos_shiftl, Z2N.id; lia|].
    apply Pos2Z.inj. rewrite Zpos_shiftl, Z2N.id; lia. }
  unfold binary_round, shl_align. rewrite Hdq, fexp_small by lia.
  destruct (Zpos (digits2_pos p) + j + (e - j) - 53 - (e - j))%Z as [|n|n] eqn:Hn.
  - apply binary_round_aux_exact; [done | lia | done | done].
  - apply binary_round_aux_exact; [done | lia | done | done].
  - replace (Zpos (digits2_pos p) + j + (e - j) - 53)%Z
      with (e - (53 - Zpos (digits2_pos p)))%Z by lia.
    apply binary_round_aux_exact; [done | lia | done |].
    rewrite Zpos_iter_xO, Hq, <- Z.mul_assoc, <- Z.pow_add_r by lia. do 2 f_equal. lia.
Qed.

Lemma binary_normalize_exact (z m j e : Z) :
  (Z.abs z < 2 ^ 53)%Z ->
  (0 <= j)%Z ->
  (-1020 <= e <= 971)%Z ->
  m = (z * 2 ^ j)%Z ->
  binary_normalize prec emax m (e - j) false = dyadic z e.
Proof.
  intros Hz Hj He ->.
  assert (0 < 2 ^ j)%Z by (apply Z.pow_pos_nonneg; lia).
  destruct z as [|p|p].
  - done.
  - pose proof (digits2_pos_le p 53 ltac:(lia)). pose proof (Pos2Z.is_pos (digits2_pos p)).
    destruct (Zpos p * 2 ^ j)%Z as [|q|q] eqn:Hq; try lia.
    cbn [binary_normalize]. by apply (binary_round_exact false p q); [| |lia|].
  - pose proof (digits2_pos_le p 53 ltac:(lia)). pose proof (Pos2Z.is_pos (digits2_pos p)).
    destruct (Zneg p * 2 ^ j)%Z as [|q|q] eqn:Hq; try lia.
    cbn [binary_normalize]. apply (binary_round_exact true p q); [done|done|lia|lia].
Qed.

Lemma of_int_dyadic (z : Z) : (Z.abs z < 2 ^ 53)%Z -> of_int z = dyadic z 0.
Proof.
  intros Hz. unfold of_int.
  apply (binary_normalize_exact z z 0 0); [done | lia | lia |]. rewrite Z.pow_0_r. lia.
Qed.

(** [z * 2^e] is a binary64 number. *)
Lemma valid_dyadic (z e : Z) :
  (Z.abs z < 2 ^ 53)%Z -> (-1020 <= e <= 971)%Z -> valid (dyadic z e) = true.
Proof.
  intros Hz He.
  assert (H : forall s p, (Zpos p < 2 ^ 53)%Z ->
                          valid (dyadic (cond_Zopp s (Zpos p)) e) = true).
  { intros s p Hp. rewrite dyadic_signed.
    pose proof (digits2_pos_le p 53 Hp). pose proof (Pos2Z.is_pos (digits2_pos p)).
    unfold valid, valid_binary, bounded, canonical_mantissa.
    rewrite digits2_pos_shiftl, Z2N.id, fexp_small by lia.
    apply andb_true_intro. split; [apply Z.eqb_eq | apply Z.leb_le; unfold emax, prec]; lia. }
  destruct z as [|p|p]; [done | apply (H false p); lia | apply (H true p); lia].
Qed.












(* ===================================================================== *)
(** ** The translation error on a binary grid *)
(* ===================================================================== *)




(* ===================================================================== *)
(** ** A document compared with itself *)
(* ===================================================================== *)

(** The rotation error of the specification is [+0] when the trace is
    computed as 3. *)
Lemma RotationError_trace_3 (aMatrix bMatrix : vtkMatrix4x4) :
  relative_rotation_trace aMatrix bMatrix = of_int 3 ->
  RotationError aMatrix bMatrix = zero.
Proof. intros H. unfold RotationError. rewrite H. by vm_compute. Qed.

(** Whatever the translation, the identity rotation has trace 3 with
    itself. *)
Lemma relative_rotation_trace_translation (x y z : double) :
  relative_rotation_trace (matrix_of (translation_by x y z)) (matrix_of (translation_by x y z))
  = of_int 3.
Proof. reflexivity. Qed.

(** C2, as the function has it: when a valid document is compared with
    itself, with thresholds that are not negative, the translation check,
    every component of PRE and PLDE and both confidence levels pass, and
    the rotation check alone decides: for every orientation difference,
    the log is the line of the rotation check and the function returns 1
    when the orientation difference of the document's transform with
    itself is above the rotation threshold, and 0 otherwise.  With the
    rotation error of section 4.2 of the specification the function
    returns 0 whenever the trace of the transform with itself is computed
    as 3. *)
Theorem self_comparison_counts_rotation (root : vtkXMLDataElement) (t r : Z) :
  valid_document root = true ->
  (0 <= t)%Z -> (0 <= r)%Z ->
  exists (f : document_fields) (a : list double),
    fields_of root = Some f /\ TransformImageToProbe f = Some a
    /\ (forall GetOrientationDifference : vtkMatrix4x4 -> vtkMatrix4x4 -> double,
          CompareLog GetOrientationDifference (Some root) (Some root) t r
          = rotation_log (GetOrientationDifference (matrix_of a) (matrix_of a)) r
          /\ CompareCalibrationResultsWithBaseline GetOrientationDifference
               (Some root) (Some root) t r
             = if gtb (GetOrientationDifference (matrix_of a) (matrix_of a)) (of_int r)
               then 1%Z else 0%Z)
    /\ (relative_rotation_trace (matrix_of a) (matrix_of a) = of_int 3 ->
        CompareCalibrationResultsWithBaseline RotationError (Some root) (Some root) t r
        = 0%Z).
Proof.
  unfold valid_document. intros Hvalid Ht Hr.
  destruct (fields_of root) as [f|] eqn:Hf; [|done].
  destruct f as [[a|] [p|] [pc|] [l|] [lc|]]; try done.
  cbn in Hvalid. repeat (apply andb_prop in Hvalid as [Hvalid ?]).
  assert (Hall : forall G,
    CompareLog G (Some root) (Some root) t r = rotation_log (G (matrix_of a) (matrix_of a)) r
    /\ CompareCalibrationResultsWithBaseline G (Some root) (Some root) t r
       = if gtb (G (matrix_of a) (matrix_of a)) (of_int r) then 1%Z else 0%Z).
  { intros G. destruct (compare_all_sections G root root _ _ t r Hf Hf) as [-> ->].
    unfold fields_log. cbn [TransformImageToProbe PRE PRE_confidence PLDE PLDE_confidence].
    rewrite !vector_log_self, !confidence_log_self, !app_nil_r by done.
    unfold transform_log. rewrite fill_matrices_matrix_of. unfold translation_log.
    rewrite (not_above_threshold _ t Ht (position_difference_self _)). cbn [app].
    split; [done|]. unfold rotation_log. by destruct (gtb _ _). }
  exists (Fields (Some a) (Some p) (Some pc) (Some l) (Some lc)), a.
  split; [done|]. split; [done|]. split; [exact Hall|].
  intros Htrace. rewrite (proj2 (Hall RotationError)), (RotationError_trace_3 _ _ Htrace).
  by rewrite (not_above_threshold zero r Hr eq_refl).
Qed.

(** The rotation error of section 4.2 on a quarter turn and on a half turn
    about z: 90 and 180 degrees. *)
Lemma RotationError_quarter_turn :
  RotationError New (matrix_of (rotation_about_z zero one)) = of_int 90.
Proof. by vm_compute. Qed.

Lemma RotationError_half_turn :
  RotationError New (matrix_of (rotation_about_z (of_int (-1)) zero)) = of_int 180.
Proof. by vm_compute. Qed.

(** The transform that turns by 46 degrees, compared with itself: the trace
    is computed as 2.9999999999999996 = 6755399441055743 * 2^-51, and the
    one line of the log reports the rotation error
    1.2074182697257333e-6 = 5701871567757264 * 2^-72. *)
Lemma turned_baseline_log :
  relative_rotation_trace (matrix_of (rotation_about_z cos_46 sin_46))
                          (matrix_of (rotation_about_z cos_46 sin_46))
  = S754_finite false 6755399441055743 (-51)
  /\ CompareLog RotationError (Some turned_baseline) (Some turned_baseline) 0 0
     = [RotationErrorTooHigh (S754_finite false 5701871567757264 (-72)) 0].
Proof. split; by vm_compute. Qed.

(** The identity property fails on a document whose transform turns by 46
    degrees: the trace of the transform with itself is computed as
    2.9999999999999996, the rotation error of section 4.2 is 1.2e-6
    degrees, above the threshold 0, and the function returns 1. *)
Lemma identity_property_fails :
  valid_document turned_baseline = true
  /\ CompareCalibrationResultsWithBaseline RotationError
       (Some turned_baseline) (Some turned_baseline) 0 0 = 1%Z
  /\ ~ identity_property RotationError turned_baseline 0 0.
Proof.
  split; [reflexivity|]. split; [by vm_compute|].
  intros H. specialize (H eq_refl ltac:(lia) ltac:(lia)). vm_compute in H. discriminate H.
Qed.

(** The scenario's baseline, whose rotation is the identity, compared with
    itself under the rotation error of section 4.2. *)
Lemma self_comparison_counts_rotation_witness :
  valid_document scenario_baseline = true
  /\ CompareCalibrationResultsWithBaseline RotationError
       (Some scenario_baseline) (Some scenario_baseline) 0 0 = 0%Z.
Proof.
  split; [reflexivity|].
  destruct (self_comparison_counts_rotation scenario_baseline 0 0 eq_refl
              ltac:(lia) ltac:(lia)) as (f & a & Hf & Ha & _ & Hzero).
  apply Hzero. injection Hf as <-. injection Ha as <-. reflexivity.
Defined.
